(** * Sparse MNIST experiment: training loop, evaluation routine, noise sweep

    A shallow embedding of [MNISTSparseExperiment]
    (htmresearch/frameworks/pytorch/mnist_sparse_experiment.py).

    The script is orchestration code over PyTorch.  The numerical library, the
    sparse network, the data loaders, the plotting library and the wall clock
    are external collaborators: they are gathered in the interface [Torch] and
    every definition and theorem below is parametric in it.  The experiment
    object [self] is an explicit state; Python exceptions are results that
    keep the state reached when they were raised; every call made on an
    external collaborator is recorded, in order, in a list of events. *)

From Stdlib Require Import ZArith List String Bool Lia.
From Stdlib Require Import PrimFloat FloatOps SpecFloat DecimalString.
From Stdlib Require DecimalZ DecimalPos.
Import ListNotations.
Local Open Scope Z_scope.

Set Implicit Arguments.
#[local] Set Warnings "-inexact-float".

(** ** Python values *)

(** Dictionary keys of the script: strings and floats (the noise levels). *)
Inductive pykey : Type :=
| KStr (s : string)
| KFloat (f : float).

(** The values the script stores in its result dictionaries. *)
#[local] Unset Elimination Schemes.
Inductive pyval : Type :=
| PyInt (z : Z)
| PyFloat (f : float)
| PyDict (d : list (pykey * pyval)).
#[local] Set Elimination Schemes.

Definition pydict : Type := list (pykey * pyval).

Inductive exn : Type :=
| ZeroDivisionError
| KeyError
| TypeError.

Inductive res (A : Type) : Type :=
| Ok (a : A)
| Raise (e : exn).
Arguments Raise {A} e.

(** Key comparison of a Python dict: [==] on the keys.  A float never equals a
    string; floats compare as IEEE numbers. *)
Definition key_eqb (a b : pykey) : bool :=
  match a, b with
  | KStr s, KStr t => String.eqb s t
  | KFloat f, KFloat g => PrimFloat.eqb f g
  | _, _ => false
  end.

Fixpoint dict_get (k : pykey) (d : pydict) : option pyval :=
  match d with
  | [] => None
  | (k', v) :: d' => if key_eqb k' k then Some v else dict_get k d'
  end.

(** [d[k] = v]: an existing entry keeps its key and takes the new value. *)
Fixpoint dict_set (k : pykey) (v : pyval) (d : pydict) : pydict :=
  match d with
  | [] => [(k, v)]
  | (k', v') :: d' =>
      if key_eqb k' k then (k', v) :: d' else (k', v') :: dict_set k v d'
  end.

(** [d.update(other)] *)
Definition dict_update (d other : pydict) : pydict :=
  fold_left (fun acc kv => dict_set (fst kv) (snd kv) acc) other d.

Definition dict_keys (d : pydict) : list pykey := map fst d.

Definition has_key (k : pykey) (d : pydict) : bool :=
  match dict_get k d with Some _ => true | None => false end.

(** [float(z)] for a Python integer: round to nearest even. *)
Definition float_of_Z (z : Z) : float :=
  SF2Prim (binary_normalize prec emax z 0 false).

(** [a + b] on numbers. *)
Definition py_add (a b : pyval) : res pyval :=
  match a, b with
  | PyInt x, PyInt y => Ok (PyInt (x + y))
  | PyInt x, PyFloat g => Ok (PyFloat (float_of_Z x + g)%float)
  | PyFloat f, PyInt y => Ok (PyFloat (f + float_of_Z y)%float)
  | PyFloat f, PyFloat g => Ok (PyFloat (f + g)%float)
  | _, _ => Raise TypeError
  end.

(** [a * b] on numbers. *)
Definition py_mul (a b : pyval) : res pyval :=
  match a, b with
  | PyInt x, PyInt y => Ok (PyInt (x * y))
  | PyInt x, PyFloat g => Ok (PyFloat (float_of_Z x * g)%float)
  | PyFloat f, PyInt y => Ok (PyFloat (f * float_of_Z y)%float)
  | PyFloat f, PyFloat g => Ok (PyFloat (f * g)%float)
  | _, _ => Raise TypeError
  end.

Definition float_is_zero (f : float) : bool := PrimFloat.eqb f 0%float.

(** [a / b].  The module imports only [print_function] from [__future__], so
    [/] is the classic division: it floors on two integers and is the float
    division otherwise; a zero divisor raises [ZeroDivisionError]. *)
Definition py_div (a b : pyval) : res pyval :=
  match a, b with
  | PyInt x, PyInt y =>
      if y =? 0 then Raise ZeroDivisionError else Ok (PyInt (x / y))
  | PyInt x, PyFloat g =>
      if float_is_zero g then Raise ZeroDivisionError
      else Ok (PyFloat (float_of_Z x / g)%float)
  | PyFloat f, PyInt y =>
      if y =? 0 then Raise ZeroDivisionError
      else Ok (PyFloat (f / float_of_Z y)%float)
  | PyFloat f, PyFloat g =>
      if float_is_zero g then Raise ZeroDivisionError
      else Ok (PyFloat (f / g)%float)
  | _, _ => Raise TypeError
  end.

(** [a % b] on integers: the sign of the result follows the divisor, as
    [Z.modulo] does; a zero divisor raises [ZeroDivisionError]. *)
Definition py_mod (a b : Z) : res Z :=
  if b =? 0 then Raise ZeroDivisionError else Ok (a mod b).

(** [str(z)] *)
Definition str (z : Z) : string := NilZero.string_of_int (Z.to_int z).

(** ** Parameters and external collaborators *)

(** Experiment parameters read by [train], [test], [runNoiseTests] and
    [iterate]. *)
Record Params : Type := {
  iterations : Z;
  log_interval : Z;
  test_batch_size : Z
}.

Class Torch : Type := {
  (** the network [SparseMNISTNet]: weights, gradients and buffers *)
  Net : Type;
  (** the [optim.SGD] instance *)
  Optimizer : Type;
  (** a batch of images *)
  Tensor : Type;
  (** one row of the output: the log-probabilities of a sample *)
  Row : Type;
  Loss : Type;
  (** [self.model(data)], given the mode flag [training] of the module and
      whether gradients are tracked (they are not under [torch.no_grad()]):
      the output rows and the network after the call *)
  forward : bool -> bool -> Net -> Tensor -> list Row * Net;
  (** [F.nll_loss(output, target)] *)
  nll_loss : list Row -> list Z -> Loss;
  (** [F.nll_loss(output, target, reduction='sum').item()] *)
  nll_loss_sum : list Row -> list Z -> float;
  (** [loss.backward()] *)
  backward : Loss -> Net -> Net;
  (** [optimizer.zero_grad()] *)
  zero_grad : Optimizer -> Net -> Net;
  (** [optimizer.step()] *)
  step : Optimizer -> Net -> Optimizer * Net;
  rezeroWeights : Net -> Net;
  postEpoch : Net -> Net;
  learningIterations : Net -> Z;
  (** the index [row.max(...)[1]] of the largest entry of a row *)
  argmax : Row -> Z;
  (** the global random generators seeded by [reset] *)
  Rng : Type;
  (** a [torch.utils.data.DataLoader] *)
  DataLoader : Type;
  (** [len(loader.dataset)] *)
  dataset_len : DataLoader -> Z;
  (** one iteration over a loader: the batches [(data, target)] it yields, in
      order, and the generators after the shuffling and the random
      transforms of that iteration *)
  loader_iter : DataLoader -> Rng -> list (Tensor * list Z) * Rng;
  (** [DataLoader(datasets.MNIST(dataDir, train=False,
        transform=Compose([ToTensor(), RandomNoise(noise), Normalize(...)])),
        batch_size=..., shuffle=True, **kwargs)], with [kwargs] chosen by
      [use_cuda] *)
  MNIST_noise_loader : string -> float -> Z -> bool -> DataLoader;
  (** the successive readings of [time.time()] *)
  time_time : nat -> float
}.

(** Calls on the collaborators, in the order the script makes them. *)
Inductive event : Type :=
| E_model_train
| E_model_eval
| E_zero_grad
| E_forward
| E_backward
| E_step
| E_rezeroWeights
| E_postEpoch
| E_savefig (path : string)
| E_DataLoader (noise : float)
| E_print.

(** ** The experiment object and the monad of its methods *)

Section Experiment.
Context {T : Torch}.

(** The run state [self], as [reset] leaves it.  [model] and [training] are
    the module [self.model]: the network and its mode flag ([model.train()]
    sets it, [model.eval()] clears it).  [rng] is the state of the
    random generators and [clock] the number of readings of [time.time()]
    made so far. *)
Record Suite : Type := {
  startTime : float;
  dataDir : string;
  resultsDir : string;
  use_cuda : bool;
  train_loader : DataLoader;
  test_loader : DataLoader;
  model : Net;
  training : bool;
  optimizer : Optimizer;
  rng : Rng;
  clock : nat
}.

Definition set_model (m : Net) (s : Suite) : Suite :=
  {| startTime := startTime s; dataDir := dataDir s;
     resultsDir := resultsDir s; use_cuda := use_cuda s;
     train_loader := train_loader s; test_loader := test_loader s;
     model := m; training := training s; optimizer := optimizer s;
     rng := rng s; clock := clock s |}.

Definition set_training (b : bool) (s : Suite) : Suite :=
  {| startTime := startTime s; dataDir := dataDir s;
     resultsDir := resultsDir s; use_cuda := use_cuda s;
     train_loader := train_loader s; test_loader := test_loader s;
     model := model s; training := b; optimizer := optimizer s;
     rng := rng s; clock := clock s |}.

Definition set_optimizer (o : Optimizer) (s : Suite) : Suite :=
  {| startTime := startTime s; dataDir := dataDir s;
     resultsDir := resultsDir s; use_cuda := use_cuda s;
     train_loader := train_loader s; test_loader := test_loader s;
     model := model s; training := training s; optimizer := o;
     rng := rng s; clock := clock s |}.

Definition set_clock (n : nat) (s : Suite) : Suite :=
  {| startTime := startTime s; dataDir := dataDir s;
     resultsDir := resultsDir s; use_cuda := use_cuda s;
     train_loader := train_loader s; test_loader := test_loader s;
     model := model s; training := training s; optimizer := optimizer s;
     rng := rng s; clock := n |}.

Definition set_rng (g : Rng) (s : Suite) : Suite :=
  {| startTime := startTime s; dataDir := dataDir s;
     resultsDir := resultsDir s; use_cuda := use_cuda s;
     train_loader := train_loader s; test_loader := test_loader s;
     model := model s; training := training s; optimizer := optimizer s;
     rng := g; clock := clock s |}.

(** What a method call leaves behind: its value or the exception it raised,
    the state of [self], and the calls it made on the collaborators. *)
Record outcome (A : Type) : Type := {
  result : res A;
  final : Suite;
  events : list event
}.

Definition M (A : Type) : Type := Suite -> outcome A.

Definition pure {A : Type} (a : A) : M A :=
  fun s => {| result := Ok a; final := s; events := [] |}.

Definition raise {A : Type} (e : exn) : M A :=
  fun s => {| result := Raise e; final := s; events := [] |}.

Definition bind {A B : Type} (m : M A) (k : A -> M B) : M B :=
  fun s =>
    let o := m s in
    match result o with
    | Ok a =>
        let o' := k a (final o) in
        {| result := result o'; final := final o';
           events := events o ++ events o' |}
    | Raise e => {| result := Raise e; final := final o; events := events o |}
    end.

Definition lift {A : Type} (r : res A) : M A :=
  fun s => {| result := r; final := s; events := [] |}.

Definition get : M Suite :=
  fun s => {| result := Ok s; final := s; events := [] |}.

(** A call on a collaborator: the state changes and the call is recorded. *)
Definition call (e : event) (f : Suite -> Suite) : M unit :=
  fun s => {| result := Ok tt; final := f s; events := [e] |}.

(** A computation that calls no collaborator and leaves the state as it
    is. *)
Definition quiet {A : Type} (m : M A) : Prop :=
  forall s : Suite, final (m s) = s /\ events (m s) = [].

End Experiment.

Arguments Suite T : clear implicits.
Arguments Suite {T}.

Declare Scope py_scope.
Delimit Scope py_scope with py.
Notation "x <- c1 ;; c2" := (bind c1 (fun x => c2))
  (at level 61, c1 at next level, right associativity) : py_scope.
Notation "c1 ;; c2" := (bind c1 (fun _ => c2))
  (at level 61, right associativity) : py_scope.
Notation "' pat <- c1 ;; c2" :=
  (bind c1 (fun x => match x with pat => c2 end))
  (at level 61, pat pattern, c1 at next level, right associativity) : py_scope.
Local Open Scope py_scope.

(** ** The methods of [MNISTSparseExperiment] *)

Section Methods.
Context {T : Torch}.

(** [self.model.train()] *)
Definition model_train : M unit := call E_model_train (set_training true).

(** [self.model.eval()] *)
Definition model_eval : M unit := call E_model_eval (set_training false).

(** [self.optimizer.zero_grad()] *)
Definition optimizer_zero_grad : M unit :=
  call E_zero_grad (fun s => set_model (zero_grad (optimizer s) (model s)) s).

(** [self.model(data)]; [grad] is false inside [with torch.no_grad()]. *)
Definition model_forward (grad : bool) (data : Tensor) : M (list Row) :=
  fun s =>
    let r := forward (training s) grad (model s) data in
    {| result := Ok (fst r); final := set_model (snd r) s;
       events := [E_forward] |}.

(** [loss.backward()] *)
Definition loss_backward (loss : Loss) : M unit :=
  call E_backward (fun s => set_model (backward loss (model s)) s).

(** [self.optimizer.step()] *)
Definition optimizer_step : M unit :=
  call E_step (fun s =>
    let r := step (optimizer s) (model s) in
    set_optimizer (fst r) (set_model (snd r) s)).

(** [self.model.rezeroWeights()] *)
Definition model_rezeroWeights : M unit :=
  call E_rezeroWeights (fun s => set_model (rezeroWeights (model s)) s).

(** [self.model.postEpoch()] *)
Definition model_postEpoch : M unit :=
  call E_postEpoch (fun s => set_model (postEpoch (model s)) s).

(** [plt.hist(self.model.dutyCycle, ...); ...; plt.savefig(path); plt.close()]:
    one histogram image written at [path]. *)
Definition savefig (path : string) : M unit :=
  call (E_savefig path) (fun s => s).

Definition print : M unit := call E_print (fun s => s).

(** The batches of one iteration over [loader]. *)
Definition loader_batches (loader : DataLoader) : M (list (Tensor * list Z)) :=
  fun s =>
    let r := loader_iter loader (rng s) in
    {| result := Ok (fst r); final := set_rng (snd r) s; events := [] |}.

(** [time.time()] *)
Definition time_now : M float :=
  fun s =>
    {| result := Ok (time_time (clock s));
       final := set_clock (S (clock s)) s; events := [] |}.

(** [d[k]] *)
Definition getitem (k : pykey) (d : pydict) : M pyval :=
  match dict_get k d with
  | Some v => pure v
  | None => raise KeyError
  end.

(** [v[k]] on a value that has to be a dict. *)
Definition subscript (v : pyval) (k : pykey) : M pyval :=
  match v with
  | PyDict d => getitem k d
  | _ => raise TypeError
  end.

(** The body of the loop of [train], from batch number [batch_idx] on. *)
Fixpoint train_batches (params : Params) (epoch batch_idx : Z)
    (bs : list (Tensor * list Z)) : M unit :=
  match bs with
  | [] => pure tt
  | (data, target) :: bs' =>
      optimizer_zero_grad ;;
      output <- model_forward true data ;;
      loss_backward (nll_loss output target) ;;
      optimizer_step ;;
      model_rezeroWeights ;;
      r <- lift (py_mod batch_idx (log_interval params)) ;;
      (if r =? 0 then
         s <- get ;;
         savefig (resultsDir s ++ "/figure_" ++ str epoch ++ "_"
                    ++ str (learningIterations (model s)))
       else pure tt) ;;
      train_batches params epoch (batch_idx + 1) bs'
  end.

(** [train(self, params, epoch)]: train one epoch of this model. *)
Definition train (params : Params) (epoch : Z) : M unit :=
  model_train ;;
  s <- get ;;
  bs <- loader_batches (train_loader s) ;;
  train_batches params epoch 0 bs ;;
  model_postEpoch.

(** [pred.eq(target.view_as(pred)).sum().item()]: the positions where the
    prediction is the label. *)
Definition count_correct (pred target : list Z) : Z :=
  Z.of_nat (List.length
    (filter (fun pt => fst pt =? snd pt) (combine pred target))).

(** The loop of [test], with its two accumulators. *)
Fixpoint test_batches (bs : list (Tensor * list Z)) (test_loss : pyval)
    (correct : Z) : M (pyval * Z) :=
  match bs with
  | [] => pure (test_loss, correct)
  | (data, target) :: bs' =>
      output <- model_forward false data ;;
      test_loss <- lift (py_add test_loss
                           (PyFloat (nll_loss_sum output target))) ;;
      let pred := map argmax output in
      test_batches bs' test_loss (correct + count_correct pred target)
  end.

(** [test(self, params, test_loader)]: test the model using the given
    loader. *)
Definition test (params : Params) (loader : DataLoader) : M pydict :=
  model_eval ;;
  bs <- loader_batches loader ;;
  '(test_loss, correct) <- test_batches bs (PyInt 0) 0 ;;
  test_loss <- lift (py_div test_loss (PyInt (dataset_len loader))) ;;
  x <- lift (py_mul (PyFloat 100) (PyInt correct)) ;;
  test_error <- lift (py_div x (PyInt (dataset_len loader))) ;;
  pure [(KStr "num_correct", PyInt correct);
        (KStr "test_loss", test_loss);
        (KStr "testerror", test_error)].

Definition noise_levels : list float :=
  [0.0; 0.05; 0.1; 0.15; 0.2; 0.25; 0.3; 0.35; 0.4; 0.45; 0.5]%float.

(** The loop of [runNoiseTests] over the noise values [ns]. *)
Fixpoint noise_tests (params : Params) (ns : list float) (ret : pydict)
    (total_correct : pyval) : M (pydict * pyval) :=
  match ns with
  | [] => pure (ret, total_correct)
  | noise :: ns' =>
      s <- get ;;
      call (E_DataLoader noise) (fun s => s) ;;
      testResult <- test params
        (MNIST_noise_loader (dataDir s) noise (test_batch_size params)
           (use_cuda s)) ;;
      n <- getitem (KStr "num_correct") testResult ;;
      total_correct <- lift (py_add total_correct n) ;;
      noise_tests params ns'
        (dict_set (KFloat noise) (PyDict testResult) ret) total_correct
  end.

(** [runNoiseTests(self, params)]: run the model with different noise values
    and return the metrics. *)
Definition runNoiseTests (params : Params) : M pydict :=
  '(ret, total_correct) <- noise_tests params noise_levels [] (PyInt 0) ;;
  let ret := dict_set (KStr "totalCorrect") total_correct ret in
  r0 <- getitem (KFloat 0.0) ret ;;
  e <- subscript r0 (KStr "testerror") ;;
  pure (dict_set (KStr "testerror") e ret).

(** [iterate(self, params, repetition, iteration)]: called once for each
    training iteration (an epoch here). *)
Definition iterate (params : Params) (repetition iteration : Z) : M pydict :=
  let ret : pydict := [] in
  train params iteration ;;
  ret <- (if iteration =? iterations params - 1 then
            r <- runNoiseTests params ;;
            let ret := dict_update ret r in
            getitem (KStr "totalCorrect") ret ;;
            getitem (KStr "testerror") ret ;;
            print ;;
            pure ret
          else pure ret) ;;
  now <- time_now ;;
  s <- get ;;
  let ret :=
    dict_update ret [(KStr "elapsedTime", PyFloat (now - startTime s)%float)] in
  getitem (KStr "elapsedTime") ret ;;
  print ;;
  pure ret.

End Methods.

(** ** What the methods are compared with *)

Section Specification.
Context {T : Torch}.

(** The work of the training loop on one batch, up to the zero-weight hook. *)
Definition train_step (data : Tensor) (target : list Z) : M unit :=
  optimizer_zero_grad ;;
  output <- model_forward true data ;;
  loss_backward (nll_loss output target) ;;
  optimizer_step ;;
  model_rezeroWeights.

(** The name of the histogram written in state [s] during [epoch]. *)
Definition figure_path (epoch : Z) (s : Suite) : string :=
  (resultsDir s ++ "/figure_" ++ str epoch ++ "_"
     ++ str (learningIterations (model s)))%string.

(** The calls of one round of the training loop; [fig] is the histogram it
    writes, if it writes one. *)
Definition batch_events (fig : option string) : list event :=
  [E_zero_grad; E_forward; E_backward; E_step; E_rezeroWeights]
    ++ match fig with Some path => [E_savefig path] | None => [] end.

(** The batches [train] goes through in state [s]. *)
Definition epoch_batches (s : Suite) : list (Tensor * list Z) :=
  fst (loader_iter (train_loader s) (rng s)).

(** The state in which the loop of [train] starts. *)
Definition epoch_start (s : Suite) : Suite :=
  set_rng (snd (loader_iter (train_loader s) (rng s))) (set_training true s).

(** The network and the optimizer one round of the training loop makes of
    [(net, opt)] on a batch: the gradients are reset, the batch goes through
    the network in training mode with gradients, the loss is propagated
    back, the optimizer steps, and [rezeroWeights] is applied to the network
    the step has left. *)
Definition round_state (no : Net * Optimizer) (b : Tensor * list Z)
    : Net * Optimizer :=
  let out := forward true true (zero_grad (snd no) (fst no)) (fst b) in
  let stepped :=
    step (snd no) (backward (nll_loss (fst out) (snd b)) (snd out)) in
  (rezeroWeights (snd stepped), fst stepped).

(** The network and the optimizer after the rounds of all the batches of an
    epoch started in state [s]. *)
Definition epoch_state (s : Suite) : Net * Optimizer :=
  fold_left round_state (epoch_batches s) (model s, optimizer s).

(** The outputs of the successive inference passes over the batches, each
    with the labels of its batch, starting from the network [net]. *)
Fixpoint eval_outputs (net : Net) (bs : list (Tensor * list Z))
    : list (list Row * list Z) :=
  match bs with
  | [] => []
  | (data, target) :: bs' =>
      let r := forward false false net data in
      (fst r, target) :: eval_outputs (snd r) bs'
  end.

(** The network after these passes. *)
Fixpoint eval_net (net : Net) (bs : list (Tensor * list Z)) : Net :=
  match bs with
  | [] => net
  | (data, _) :: bs' => eval_net (snd (forward false false net data)) bs'
  end.

(** All the samples of an evaluation: an output row and its label. *)
Definition samples (outs : list (list Row * list Z)) : list (Row * Z) :=
  List.concat (map (fun ot => combine (fst ot) (snd ot)) outs).

(** The top-1 prediction of a sample is its label. *)
Definition top1_correct (sample : Row * Z) : bool :=
  argmax (fst sample) =? snd sample.

Definition spec_num_correct (outs : list (list Row * list Z)) : Z :=
  Z.of_nat (List.length (filter top1_correct (samples outs))).

(** The summed losses of the batches, added in the order of the batches. *)
Definition sum_loss (outs : list (list Row * list Z)) : float :=
  fold_left (fun acc ot => (acc + nll_loss_sum (fst ot) (snd ot))%float)
    outs 0%float.

(** The mean loss per sample of the dataset.  With no batch at all the sum
    is the integer [0] the accumulator starts from. *)
Definition spec_test_loss (outs : list (list Row * list Z)) (n : Z) : pyval :=
  match outs with
  | [] => PyInt 0
  | _ :: _ => PyFloat (sum_loss outs / float_of_Z n)%float
  end.

Definition spec_testerror (outs : list (list Row * list Z)) (n : Z) : pyval :=
  PyFloat (100 * float_of_Z (spec_num_correct outs) / float_of_Z n)%float.

(** The loss accumulated over the batches [outs] from the float [f]. *)
Definition add_losses (f : float) (outs : list (list Row * list Z)) : float :=
  fold_left (fun acc ot => (acc + nll_loss_sum (fst ot) (snd ot))%float)
    outs f.

(** The batches [test] goes through for [loader] in state [s]. *)
Definition test_batches_of (loader : DataLoader) (s : Suite)
    : list (Tensor * list Z) :=
  fst (loader_iter loader (rng s)).

(** The state [test] leaves behind. *)
Definition test_final (loader : DataLoader) (s : Suite) : Suite :=
  set_model (eval_net (model s) (test_batches_of loader s))
    (set_rng (snd (loader_iter loader (rng s))) (set_training false s)).

(** The mapping an evaluation returns. *)
Definition spec_test (outs : list (list Row * list Z)) (n : Z) : pydict :=
  [(KStr "num_correct", PyInt (spec_num_correct outs));
   (KStr "test_loss", spec_test_loss outs n);
   (KStr "testerror", spec_testerror outs n)].

(** The loader [runNoiseTests] builds for a noise level. *)
Definition noise_loader (params : Params) (s : Suite) (noise : float)
    : DataLoader :=
  MNIST_noise_loader (dataDir s) noise (test_batch_size params) (use_cuda s).

(** The evaluations of a sweep over the noise values [ns], one after the
    other from state [s]: each noise value with what [test] leaves behind.
    The sweep stops at the first evaluation that raises. *)
Fixpoint noise_evals (params : Params) (ns : list float) (s : Suite)
    : list (float * outcome pydict) :=
  match ns with
  | [] => []
  | noise :: ns' =>
      let o := test params (noise_loader params s noise) s in
      (noise, o) :: match result o with
                    | Ok _ => noise_evals params ns' (final o)
                    | Raise _ => []
                    end
  end.

(** The state an evaluation for [noise] leaves behind from state [s]. *)
Definition noise_final (params : Params) (s : Suite) (noise : float) : Suite :=
  test_final (noise_loader params s noise) s.

(** The mapping the evaluation for [noise] returns from state [s]. *)
Definition noise_result (params : Params) (s : Suite) (noise : float)
    : pydict :=
  let loader := noise_loader params s noise in
  spec_test (eval_outputs (model s) (test_batches_of loader s))
    (dataset_len loader).

(** The calls of the evaluation for [noise] from state [s]. *)
Definition noise_events (params : Params) (s : Suite) (noise : float)
    : list event :=
  E_DataLoader noise :: E_model_eval
    :: repeat E_forward
         (List.length (test_batches_of (noise_loader params s noise) s)).

(** The mappings the evaluations of a sweep over [ns] return, the state the
    sweep leaves behind and the calls it makes, when no evaluation raises. *)
Fixpoint sweep_results (params : Params) (ns : list float) (s : Suite)
    : list pydict :=
  match ns with
  | [] => []
  | noise :: ns' =>
      noise_result params s noise
        :: sweep_results params ns' (noise_final params s noise)
  end.

Fixpoint sweep_final (params : Params) (ns : list float) (s : Suite)
    : Suite :=
  match ns with
  | [] => s
  | noise :: ns' => sweep_final params ns' (noise_final params s noise)
  end.

Fixpoint sweep_events (params : Params) (ns : list float) (s : Suite)
    : list event :=
  match ns with
  | [] => []
  | noise :: ns' =>
      noise_events params s noise
        ++ sweep_events params ns' (noise_final params s noise)
  end.

(** The entry [elapsedTime] computed in state [s]: the next reading of the
    clock minus [self.startTime]. *)
Definition elapsed (s : Suite) : pyval :=
  PyFloat (time_time (clock s) - startTime s)%float.

(** The state after that reading. *)
Definition tick (s : Suite) : Suite := set_clock (S (clock s)) s.

(** The branch of [iterate] for the last iteration. *)
Definition iterate_sweep (params : Params) : M pydict :=
  r <- runNoiseTests params ;;
  let ret := dict_update [] r in
  getitem (KStr "totalCorrect") ret ;;
  getitem (KStr "testerror") ret ;;
  print ;;
  pure ret.

(** The end of [iterate], from the reading of the clock on. *)
Definition iterate_finish (ret : pydict) : M pydict :=
  now <- time_now ;;
  s <- get ;;
  let ret :=
    dict_update ret [(KStr "elapsedTime", PyFloat (now - startTime s)%float)] in
  getitem (KStr "elapsedTime") ret ;;
  print ;;
  pure ret.

(** The datasets of the loaders built for the noise values [ns] are not
    empty. *)
Definition datasets_nonempty (params : Params) (s : Suite) (ns : list float)
    : Prop :=
  forall noise : float,
    In noise ns -> dataset_len (noise_loader params s noise) <> 0.

End Specification.

(** [ret[noise] = testResult] for each noise value and its result, in
    order. *)
Definition set_noise_results (ret : pydict) (nrs : list (float * pydict))
    : pydict :=
  fold_left (fun d nr => dict_set (KFloat (fst nr)) (PyDict (snd nr)) d)
    nrs ret.

(** The entry [num_correct] of an evaluation result. *)
Definition num_correct_of (r : pydict) : Z :=
  match dict_get (KStr "num_correct") r with
  | Some (PyInt z) => z
  | _ => 0
  end.

Definition sum_Z (l : list Z) : Z := fold_right Z.add 0 l.

(** The mapping a sweep returns: the results [rs] of its evaluations under
    their noise values, the total [tc] and the test error [e]. *)
Definition sweep_dict (rs : list pydict) (tc e : pyval) : pydict :=
  combine (map KFloat noise_levels) (map PyDict rs)
    ++ [(KStr "totalCorrect", tc); (KStr "testerror", e)].

(** ** Predicates on the calls *)

Definition is_step (e : event) : bool :=
  match e with E_step => true | _ => false end.

Definition is_rezeroWeights (e : event) : bool :=
  match e with E_rezeroWeights => true | _ => false end.

Definition is_postEpoch (e : event) : bool :=
  match e with E_postEpoch => true | _ => false end.

Definition is_savefig (e : event) : bool :=
  match e with E_savefig _ => true | _ => false end.

Definition is_DataLoader (e : event) : bool :=
  match e with E_DataLoader _ => true | _ => false end.

(** The calls that train: they change the weights, the gradients, the
    optimizer or the schedule of the network, or put it in training mode. *)
Definition is_training_call (e : event) : bool :=
  match e with
  | E_model_train | E_zero_grad | E_backward | E_step | E_rezeroWeights
  | E_postEpoch => true
  | _ => false
  end.

Definition no_training_call (l : list event) : bool :=
  forallb (fun e => negb (is_training_call e)) l.

Definition count (f : event -> bool) (l : list event) : nat :=
  List.length (filter f l).

(** Every optimizer step is followed at once by the zero-weight hook. *)
Fixpoint rezero_follows_step (l : list event) : bool :=
  match l with
  | [] => true
  | E_step :: l' =>
      match l' with
      | E_rezeroWeights :: _ => rezero_follows_step l'
      | _ => false
      end
  | _ :: l' => rezero_follows_step l'
  end.

(** The zero-weight hook is called right after an optimizer step only. *)
Fixpoint rezero_only_after_step (l : list event) : bool :=
  match l with
  | [] => true
  | E_step :: E_rezeroWeights :: l' => rezero_only_after_step l'
  | E_rezeroWeights :: _ => false
  | _ :: l' => rezero_only_after_step l'
  end.

Definition is_some {A : Type} (o : option A) : bool :=
  match o with Some _ => true | None => false end.

(** The batch numbers at which the training loop writes a histogram when
    the interval is [li]. *)
Definition every (li : Z) (i : Z) : bool := i mod li =? 0.

(** The calls of [n] rounds of the training loop from batch number [i] on,
    when the rounds that write a histogram are those of the batch numbers in
    [writes]. *)
Inductive loop_events (writes : Z -> bool) : Z -> nat -> list event -> Prop :=
| loop_done (i : Z) : loop_events writes i 0 []
| loop_round (i : Z) (n : nat) (fig : option string) (evs : list event) :
    is_some fig = writes i ->
    loop_events writes (i + 1) n evs ->
    loop_events writes i (S n) (batch_events fig ++ evs).

(** ** What the methods keep and count *)

Section Frame.
Context {T : Torch}.

(** The part of [self] that [reset] sets and the other methods only read. *)
Definition config (s : Suite)
    : float * string * string * bool * DataLoader * DataLoader :=
  (startTime s, dataDir s, resultsDir s, use_cuda s, train_loader s,
   test_loader s).

(** What neither an epoch nor a sweep changes: the configuration and the
    number of readings of the clock. *)
Definition fixed (s : Suite)
    : float * string * string * bool * DataLoader * DataLoader * nat :=
  (config s, clock s).

(** The event [ev], if it writes a histogram, writes it in the directory
    [dir] under the name of the epoch. *)
Definition figure_of (dir : string) (epoch : Z) (ev : event) : Prop :=
  match ev with
  | E_savefig path =>
      exists k : Z,
        path = (dir ++ "/figure_" ++ str epoch ++ "_" ++ str k)%string
  | _ => True
  end.

(** [self.test_loader = l] *)
Definition set_test_loader (l : DataLoader) (s : Suite) : Suite :=
  {| startTime := startTime s; dataDir := dataDir s;
     resultsDir := resultsDir s; use_cuda := use_cuda s;
     train_loader := train_loader s; test_loader := l;
     model := model s; training := training s; optimizer := optimizer s;
     rng := rng s; clock := clock s |}.

(** The outcome [o] with its final state changed by [g]. *)
Definition moved {A : Type} (g : Suite -> Suite) (o : outcome A)
    : outcome A :=
  {| result := result o; final := g (final o); events := events o |}.

(** The number of labels the batches [bs] carry. *)
Definition labels_yielded (bs : list (Tensor * list Z)) : Z :=
  Z.of_nat (List.length (List.concat (map snd bs))).

(** The noise values a sweep over [ns] builds a loader for: it stops after
    the first one whose dataset is empty. *)
Fixpoint levels_tried (params : Params) (s : Suite) (ns : list float)
    : list float :=
  match ns with
  | [] => []
  | noise :: ns' =>
      noise :: if dataset_len (noise_loader params s noise) =? 0 then []
               else levels_tried params s ns'
  end.

End Frame.

(** The character [_] that separates the epoch from the iteration count in
    the name of a histogram. *)
Definition underscore : Ascii.ascii :=
  Ascii.Ascii true true true true true false true false.

(** The batch numbers [i], [i + 1], ... of [n] rounds. *)
Fixpoint batch_numbers (i : Z) (n : nat) : list Z :=
  match n with
  | O => []
  | S n' => i :: batch_numbers (i + 1) n'
  end.

(** The number of multiples of [li] among the [n] batch numbers from [i]
    on. *)
Fixpoint multiples (li i : Z) (n : nat) : nat :=
  match n with
  | O => 0
  | S n' => (if i mod li =? 0 then 1 else 0) + multiples li (i + 1) n'
  end.

(** ** The set-up of the experiment *)

Module Setup.

(** The parameters [reset] reads. *)
Record Params : Type := {
  seed : Z;
  datadir : string;
  path : string;
  name : string;
  no_cuda : bool;
  batch_size : Z;
  test_batch_size : Z;
  n : Z;
  k : Z;
  boost_strength : float;
  weight_sparsity : float;
  boost_strength_factor : float;
  k_inference_factor : float;
  learning_rate : float;
  momentum : float
}.

End Setup.

(** What [reset] uses of the machine and of the libraries. *)
Class Host (T : Torch) : Type := {
  (** the file system *)
  FS : Type;
  (** [os.path.join] *)
  path_join : list string -> string;
  (** [os.path.exists] *)
  path_exists : FS -> string -> bool;
  (** [os.makedirs] *)
  makedirs : FS -> string -> FS;
  (** the file system after [datasets.MNIST(dataDir, train=True,
        download=True, ...)], which fetches the dataset into [dataDir] when
      it is not there *)
  MNIST_download : FS -> string -> FS;
  (** [torch.cuda.is_available()] *)
  cuda_is_available : bool;
  (** [torch.cuda.device_count()] *)
  cuda_device_count : Z;
  (** the generators after [torch.manual_seed(seed)] and
      [np.random.seed(seed)] *)
  manual_seed : Z -> Rng;
  (** [DataLoader(datasets.MNIST(dataDir, train=..., transform=Compose(
        [ToTensor(), Normalize(...)])), batch_size=..., shuffle=True,
        **kwargs)], with [kwargs] chosen by [use_cuda] *)
  MNIST_loader : string -> bool -> Z -> bool -> DataLoader;
  (** [SparseMNISTNet(n, k, boostStrength, weightSparsity,
        boostStrengthFactor, kInferenceFactor)]: the new network and the
      generators after the drawing of its weights *)
  SparseMNISTNet :
    Z -> Z -> float -> float -> float -> float -> Rng -> Net * Rng;
  (** [torch.nn.DataParallel] *)
  DataParallel : Net -> Net;
  (** [model.to(device)], the device being the accelerator when the flag is
      set *)
  to_device : bool -> Net -> Net;
  (** [optim.SGD(model.parameters(), lr=..., momentum=...)] *)
  SGD : Net -> float -> float -> Optimizer
}.

(** The calls of [reset] on the machine. *)
Inductive host_event : Type :=
| H_print
| H_makedirs (dir : string)
| H_download (dir : string)
| H_DataParallel.

Section Lifecycle.
Context {T : Torch} {H : Host T}.

(** What [reset] leaves behind: the experiment object, the file system and
    the calls made. *)
Record booted : Type := {
  self : Suite;
  disk : FS;
  host_events : list host_event
}.

(** [reset(self, params, repetition)]: called once at the beginning of each
    experiment.  [ticks] is the number of readings of the clock made before
    the call.  A new module is in training mode.  The calls on the
    libraries are taken to return: a seed the generators reject, a dataset
    that cannot be fetched or read, end [reset] with the exception of the
    library, before anything that follows them here. *)
Definition reset (params : Setup.Params) (repetition : Z) (ticks : nat)
    (fs : FS) : booted :=
  let startTime := time_time ticks in
  let g := manual_seed (Setup.seed params) in
  let dataDir := Setup.datadir params in
  let resultsDir :=
    path_join [Setup.path params; Setup.name params; "plots"%string] in
  let missing := negb (path_exists fs resultsDir) in
  let fs := if missing then makedirs fs resultsDir else fs in
  let use_cuda := negb (Setup.no_cuda params) && cuda_is_available in
  let fs := MNIST_download fs dataDir in
  let train_loader :=
    MNIST_loader dataDir true (Setup.batch_size params) use_cuda in
  let test_loader :=
    MNIST_loader dataDir false (Setup.test_batch_size params) use_cuda in
  let built :=
    SparseMNISTNet (Setup.n params) (Setup.k params)
      (Setup.boost_strength params) (Setup.weight_sparsity params)
      (Setup.boost_strength_factor params)
      (Setup.k_inference_factor params) g in
  let parallel := 1 <? cuda_device_count in
  let sp_model := if parallel then DataParallel (fst built) else fst built in
  let model := to_device use_cuda sp_model in
  let optimizer :=
    SGD model (Setup.learning_rate params) (Setup.momentum params) in
  {| self :=
       {| startTime := startTime; dataDir := dataDir;
          resultsDir := resultsDir; use_cuda := use_cuda;
          train_loader := train_loader; test_loader := test_loader;
          model := model; training := true; optimizer := optimizer;
          rng := snd built; clock := S ticks |};
     disk := fs;
     host_events :=
       [H_print]
         ++ (if missing then [H_makedirs resultsDir] else [])
         ++ [H_download dataDir]
         ++ (if parallel then [H_print; H_DataParallel] else []) |}.

End Lifecycle.

(** ** A small instance of the collaborators, to run the methods on *)

Module Toy.

Record loader : Type := {
  len : Z;
  yields : list (list Z * list Z)
}.

(** The network is a bias and a counter of training passes; an image is a
    number; the output row of an image is the class it is given. *)
Definition torch : Torch := {|
  Net := Z * Z;
  Optimizer := unit;
  Tensor := list Z;
  Row := Z;
  Loss := Z;
  forward := fun training _ net data =>
    (map (fun x => x + fst net) data,
     if training then (fst net, snd net + 1) else net);
  nll_loss := fun out target => count_correct out target;
  nll_loss_sum := fun out target =>
    float_of_Z (Z.of_nat (List.length target) - count_correct out target);
  backward := fun _ net => net;
  zero_grad := fun _ net => net;
  step := fun o net => (o, (fst net + 1, snd net));
  rezeroWeights := fun net => net;
  postEpoch := fun net => net;
  learningIterations := snd;
  argmax := fun r => r;
  Rng := nat;
  DataLoader := loader;
  dataset_len := len;
  loader_iter := fun l g => (yields l, S g);
  MNIST_noise_loader := fun _ _ _ _ =>
    {| len := 4; yields := [([0; 1], [0; 1]); ([2; 3], [2; 4])] |};
  time_time := fun n => float_of_Z (Z.of_nat n)
|}.

Definition train_set : loader :=
  {| len := 4; yields := [([0; 1], [0; 1]); ([2; 3], [2; 3])] |}.

Definition test_set : loader :=
  {| len := 2; yields := [([0; 1], [0; 1])] |}.

Definition suite : @Suite torch := {|
  startTime := 0%float;
  dataDir := "data";
  resultsDir := "results/exp/plots";
  use_cuda := false;
  train_loader := (train_set : @DataLoader torch);
  test_loader := (test_set : @DataLoader torch);
  model := ((0, 0) : @Net torch);
  training := false;
  optimizer := (tt : @Optimizer torch);
  rng := (0%nat : @Rng torch);
  clock := 1%nat
|}.

Definition params (its li : Z) : Params :=
  {| iterations := its; log_interval := li; test_batch_size := 2 |}.

(** One iteration, an interval of five batches. *)
Definition p5 : Params := params 1 5.

End Toy.

(** A small machine: the file system is the list of the paths that exist. *)
Module ToyHost.

Definition host : Host Toy.torch := {|
  FS := list string;
  path_join := String.concat "/";
  path_exists := fun fs d => existsb (String.eqb d) fs;
  makedirs := fun fs d => d :: fs;
  MNIST_download := fun fs d =>
    if existsb (String.eqb d) fs then fs else d :: fs;
  cuda_is_available := false;
  cuda_device_count := 0;
  manual_seed := fun seed => (Z.to_nat seed : @Rng Toy.torch);
  MNIST_loader := fun _ train _ _ =>
    (if train then Toy.train_set else Toy.test_set : @DataLoader Toy.torch);
  SparseMNISTNet := fun _ _ _ _ _ _ (g : @Rng Toy.torch) =>
    (((0, 0) : @Net Toy.torch), (S g : @Rng Toy.torch));
  DataParallel := fun net => net;
  to_device := fun _ net => net;
  SGD := fun _ _ _ => (tt : @Optimizer Toy.torch)
|}.

Definition params : Setup.Params := {|
  Setup.seed := 42;
  Setup.datadir := "data";
  Setup.path := "results";
  Setup.name := "exp";
  Setup.no_cuda := false;
  Setup.batch_size := 2;
  Setup.test_batch_size := 2;
  Setup.n := 50;
  Setup.k := 10;
  Setup.boost_strength := 1.5%float;
  Setup.weight_sparsity := 0.5%float;
  Setup.boost_strength_factor := 0.5%float;
  Setup.k_inference_factor := 1.5%float;
  Setup.learning_rate := 0.25%float;
  Setup.momentum := 0%float
|}.

End ToyHost.

(** Runs of the methods on the small instance. *)
Module ToyRun.

Definition value (r : res pydict) : pydict :=
  match r with Ok d => d | Raise _ => [] end.

(** The object [reset] sets up on an empty file system. *)
Definition booted : @Suite Toy.torch :=
  self (reset (H := ToyHost.host) ToyHost.params 0 0 []).

(** The mapping of a last iteration. *)
Definition last : pydict :=
  Eval vm_compute in value (result (iterate Toy.p5 0 0 Toy.suite)).

(** The mappings of two iterations in a row after [reset]. *)
Definition first : pydict :=
  Eval vm_compute in value (result (iterate Toy.p5 0 0 booted)).

Definition second : pydict :=
  Eval vm_compute in
    value (result (iterate Toy.p5 0 1 (final (iterate Toy.p5 0 0 booted)))).

(** The mapping of an evaluation. *)
Definition tested : pydict :=
  Eval vm_compute in
    value (result (test Toy.p5 (Toy.test_set : @DataLoader Toy.torch)
                     Toy.suite)).

End ToyRun.

(** A second small instance.  The network has a free weight and a weight
    that has to stay zero: the optimizer moves both, [rezeroWeights] puts
    the second back to zero.  The loaders have a random transform: the order
    and the labels of the samples of a loader are fixed, the image of a
    sample is its label plus the noise drawn from the generators. *)
Module Noisy.

Definition torch : Torch := {|
  Net := Z * Z;
  Optimizer := unit;
  Tensor := list Z;
  Row := Z;
  Loss := unit;
  forward := fun _ _ net data =>
    (map (fun x => x + fst net + snd net) data, net);
  nll_loss := fun _ _ => tt;
  nll_loss_sum := fun out target =>
    float_of_Z (Z.of_nat (List.length target) - count_correct out target);
  backward := fun _ net => net;
  zero_grad := fun _ net => net;
  step := fun o net => (o, (fst net + 1, snd net + 1));
  rezeroWeights := fun net => (fst net, 0);
  postEpoch := fun net => (fst net + 10, snd net);
  learningIterations := fst;
  argmax := fun r => r;
  Rng := nat;
  DataLoader := list Z;
  dataset_len := fun l => Z.of_nat (List.length l);
  loader_iter := fun l g => ([(map (fun y => y + Z.of_nat g) l, l)], S g);
  MNIST_noise_loader := fun _ _ _ _ => [0; 1];
  time_time := fun n => float_of_Z (Z.of_nat n)
|}.

Definition labels : @DataLoader torch := ([0; 1] : list Z).

Definition suite : @Suite torch := {|
  startTime := 0%float;
  dataDir := "data";
  resultsDir := "results/exp/plots";
  use_cuda := false;
  train_loader := labels;
  test_loader := labels;
  model := ((0, 0) : @Net torch);
  training := false;
  optimizer := (tt : @Optimizer torch);
  rng := (0%nat : @Rng torch);
  clock := 1%nat
|}.

End Noisy.

(** * Properties *)

Unset Implicit Arguments.

(** ** Running the monad *)

Section MonadFacts.
Context {T : Torch}.

Lemma bind_unfold {A B : Type} (m : M A) (k : A -> M B) (s : Suite) :
  bind m k s =
  match result (m s) with
  | Ok a =>
      {| result := result (k a (final (m s)));
         final := final (k a (final (m s)));
         events := events (m s) ++ events (k a (final (m s))) |}
  | Raise e =>
      {| result := Raise e; final := final (m s); events := events (m s) |}
  end.
Proof. reflexivity. Qed.

Lemma outcome_eta {A : Type} (o : outcome A) :
  {| result := result o; final := final o; events := events o |} = o.
Proof. now destruct o. Qed.

Lemma bind_get {B : Type} (k : Suite -> M B) (s : Suite) :
  bind get k s = k s s.
Proof. rewrite bind_unfold. cbn. apply outcome_eta. Qed.

Lemma bind_pure {A B : Type} (a : A) (k : A -> M B) (s : Suite) :
  bind (pure a) k s = k a s.
Proof. rewrite bind_unfold. cbn. apply outcome_eta. Qed.

Lemma bind_call {B : Type} (e : event) (f : Suite -> Suite)
    (k : unit -> M B) (s : Suite) :
  bind (call e f) k s =
  {| result := result (k tt (f s)); final := final (k tt (f s));
     events := e :: events (k tt (f s)) |}.
Proof. reflexivity. Qed.

Lemma quiet_pure {A : Type} (a : A) : quiet (pure a).
Proof. intros s. split; reflexivity. Qed.

Lemma quiet_raise {A : Type} (e : exn) : quiet (@raise T A e).
Proof. intros s. split; reflexivity. Qed.

Lemma quiet_lift {A : Type} (r : res A) : quiet (lift r).
Proof. intros s. split; reflexivity. Qed.

Lemma quiet_bind {A B : Type} (m : M A) (k : A -> M B) :
  quiet m -> (forall a : A, quiet (k a)) -> quiet (bind m k).
Proof.
  intros Hm Hk s. rewrite bind_unfold. destruct (Hm s) as [Hf He].
  destruct (result (m s)) as [a|e]; cbn [final events]; [|now split].
  rewrite Hf, He. destruct (Hk a s) as [Hf' He']. now rewrite Hf', He'.
Qed.

Lemma quiet_getitem (k : pykey) (d : pydict) : quiet (getitem k d).
Proof.
  unfold getitem. destruct (dict_get k d);
    [apply quiet_pure|apply quiet_raise].
Qed.

Lemma quiet_subscript (v : pyval) (k : pykey) : quiet (subscript v k).
Proof.
  destruct v; cbn; try apply quiet_raise. apply quiet_getitem.
Qed.

(** A quiet continuation adds nothing to the state and the calls. *)
Lemma bind_quiet {A B : Type} (m : M A) (k : A -> M B) (s : Suite) :
  (forall a : A, quiet (k a)) ->
  final (bind m k s) = final (m s) /\ events (bind m k s) = events (m s).
Proof.
  intros Hk. rewrite bind_unfold.
  destruct (result (m s)) as [a|e]; cbn [final events]; [|now split].
  destruct (Hk a (final (m s))) as [Hf He].
  now rewrite Hf, He, app_nil_r.
Qed.

Lemma bind_result_raise {A B : Type} (m : M A) (k : A -> M B) (s : Suite)
    (ex : exn) :
  result (m s) = Raise ex -> result (bind m k s) = Raise ex.
Proof. intros H. rewrite bind_unfold, H. reflexivity. Qed.

Lemma bind_result_ok {A B : Type} (m : M A) (k : A -> M B) (s : Suite)
    (a : A) :
  result (m s) = Ok a -> result (bind m k s) = result (k a (final (m s))).
Proof. intros H. rewrite bind_unfold, H. reflexivity. Qed.

Lemma bind_final_ok {A B : Type} (m : M A) (k : A -> M B) (s : Suite)
    (a : A) :
  result (m s) = Ok a -> final (bind m k s) = final (k a (final (m s))).
Proof. intros H. rewrite bind_unfold, H. reflexivity. Qed.

Lemma getitem_some (k : pykey) (d : pydict) (v : pyval) :
  dict_get k d = Some v -> getitem k d = pure v.
Proof. intros H. unfold getitem. now rewrite H. Qed.

End MonadFacts.

(** ** Counting calls *)

Lemma count_app (f : event -> bool) (l l' : list event) :
  count f (l ++ l') = (count f l + count f l')%nat.
Proof. unfold count. now rewrite filter_app, length_app. Qed.

Lemma count_batch_events (f : event -> bool) (fig : option string) :
  count f (batch_events fig) =
  (count f [E_zero_grad; E_forward; E_backward; E_step; E_rezeroWeights]
   + match fig with Some path => count f [E_savefig path] | None => 0 end)%nat.
Proof. unfold batch_events. rewrite count_app. now destruct fig. Qed.

Section LoopEvents.
Variable writes : Z -> bool.

Lemma loop_events_steps i n evs :
  loop_events writes i n evs ->
  count is_step evs = n /\ count is_rezeroWeights evs = n
  /\ count is_postEpoch evs = 0%nat.
Proof.
  induction 1 as [i|i n fig evs Hfig _ (IHs & IHr & IHp)]; [now cbn|].
  rewrite !count_app, !count_batch_events, IHs, IHr, IHp.
  now destruct fig.
Qed.

Lemma loop_events_follows i n evs :
  loop_events writes i n evs ->
  forall rest,
    rezero_follows_step (evs ++ rest) = rezero_follows_step rest
    /\ rezero_only_after_step (evs ++ rest) = rezero_only_after_step rest.
Proof.
  induction 1 as [i|i n fig evs Hfig _ IH]; intros rest; [now cbn|].
  rewrite <- app_assoc. destruct (IH rest) as [IH1 IH2].
  destruct fig; cbn; now rewrite ?IH1, ?IH2.
Qed.

End LoopEvents.

Section LoopSavefig.
Variable li : Z.

(** Past batch number 0 and below the interval no histogram is written. *)
Lemma loop_events_no_savefig i n evs :
  loop_events (every li) i n evs ->
  0 < i -> i + Z.of_nat n <= li ->
  count is_savefig evs = 0%nat.
Proof.
  induction 1 as [i|i n fig evs Hfig _ IH]; intros Hi Hn; [now cbn|].
  rewrite count_app, count_batch_events, IH by lia.
  destruct fig as [path|]; [|reflexivity].
  cbn in Hfig. symmetry in Hfig. apply Z.eqb_eq in Hfig.
  rewrite Z.mod_small in Hfig by lia. lia.
Qed.

(** From batch number 0 and with an interval that covers all the batches,
    the first round writes a histogram and no other does. *)
Lemma loop_events_one_savefig n evs :
  loop_events (every li) 0 (S n) evs ->
  Z.of_nat (S n) <= li ->
  count is_savefig evs = 1%nat.
Proof.
  intros H Hn. inversion H as [|i n' fig evs' Hfig Hrest]; subst.
  rewrite count_app, count_batch_events.
  rewrite (loop_events_no_savefig _ _ _ Hrest) by lia.
  unfold every in Hfig. rewrite Z.mod_0_l in Hfig by lia.
  destruct fig; [reflexivity|discriminate].
Qed.

End LoopSavefig.

Section TrainFacts.
Context {T : Torch}.

(** One round of the loop of [train]. *)
Lemma train_batches_cons (p : Params) (e i : Z) (d : Tensor) (t : list Z)
    (bs : list (Tensor * list Z)) (s : Suite) :
  train_batches p e i ((d, t) :: bs) s =
  let s1 := final (train_step d t s) in
  match py_mod i (log_interval p) with
  | Raise ex =>
      {| result := Raise ex; final := s1; events := batch_events None |}
  | Ok r =>
      let fig := if r =? 0 then Some (figure_path e s1) else None in
      let o := train_batches p e (i + 1) bs s1 in
      {| result := result o; final := final o;
         events := batch_events fig ++ events o |}
  end.
Proof.
  cbn [train_batches]. unfold bind, train_step, lift. cbn.
  destruct (py_mod i (log_interval p)) as [r|ex]; cbn; [|reflexivity].
  destruct (r =? 0); cbn; reflexivity.
Qed.

(** With a nonzero interval the loop runs through all its batches. *)
Lemma train_batches_ok (p : Params) (e : Z) :
  log_interval p <> 0 ->
  forall (bs : list (Tensor * list Z)) (i : Z) (s : Suite),
    result (train_batches p e i bs s) = Ok tt
    /\ loop_events (every (log_interval p)) i (List.length bs)
         (events (train_batches p e i bs s)).
Proof.
  intros Hli. induction bs as [|[d t] bs IH]; intros i s.
  - split; [reflexivity|constructor].
  - rewrite train_batches_cons. unfold py_mod.
    destruct (Z.eqb_spec (log_interval p) 0) as [E|_]; [contradiction|].
    cbn zeta. destruct (IH (i + 1) (final (train_step d t s))) as [Hr He].
    split; [exact Hr|]. cbn [result events List.length].
    constructor; [|exact He].
    unfold every. now destruct (i mod log_interval p =? 0).
Qed.

(** With a zero interval the first round raises, after its zero-weight
    hook. *)
Lemma train_batches_zero (p : Params) (e i : Z) (d : Tensor) (t : list Z)
    (bs : list (Tensor * list Z)) (s : Suite) :
  log_interval p = 0 ->
  train_batches p e i ((d, t) :: bs) s =
  {| result := Raise ZeroDivisionError; final := final (train_step d t s);
     events := batch_events None |}.
Proof.
  intros Hli. rewrite train_batches_cons, Hli. reflexivity.
Qed.

Lemma train_unfold (p : Params) (e : Z) (s : Suite) :
  train p e s =
  let o := train_batches p e 0 (epoch_batches s) (epoch_start s) in
  match result o with
  | Ok _ =>
      {| result := Ok tt;
         final := set_model (postEpoch (model (final o))) (final o);
         events := E_model_train :: events o ++ [E_postEpoch] |}
  | Raise ex =>
      {| result := Raise ex; final := final o;
         events := E_model_train :: events o |}
  end.
Proof.
  unfold train, bind, model_train, get, loader_batches, model_postEpoch, call.
  cbn. fold (epoch_batches s). fold (epoch_start s).
  destruct (result (train_batches p e 0 (epoch_batches s) (epoch_start s)));
    reflexivity.
Qed.

Lemma train_events_ok (p : Params) (e : Z) (s : Suite) :
  log_interval p <> 0 ->
  exists evs,
    loop_events (every (log_interval p)) 0 (List.length (epoch_batches s))
      evs
    /\ result (train p e s) = Ok tt
    /\ events (train p e s) = E_model_train :: evs ++ [E_postEpoch].
Proof.
  intros Hli.
  destruct (train_batches_ok p e Hli (epoch_batches s) 0 (epoch_start s))
    as [Hr He].
  eexists. split; [exact He|]. rewrite train_unfold. cbn zeta.
  rewrite Hr. split; reflexivity.
Qed.

(** C1, as amended.  When [log_interval] is greater than the number of
    batches the training loader yields in the epoch, [train] writes exactly
    one histogram in that epoch if there is at least one batch (the histogram
    of batch number 0, since [0 % log_interval == 0]) and none if the loader
    yields no batch. *)
Theorem train_savefig_large_interval (p : Params) (e : Z) (s : Suite) :
  log_interval p > Z.of_nat (List.length (epoch_batches s)) ->
  count is_savefig (events (train p e s)) =
  match epoch_batches s with [] => 0%nat | _ :: _ => 1%nat end.
Proof.
  intros Hli.
  destruct (train_events_ok p e s) as (evs & He & _ & ->); [lia|].
  change (E_model_train :: evs ++ [E_postEpoch])
    with ([E_model_train] ++ evs ++ [E_postEpoch]).
  rewrite !count_app. cbn [count filter is_savefig List.length].
  destruct (epoch_batches s) as [|b bs]; cbn [List.length] in *.
  - inversion He; subst. reflexivity.
  - rewrite (loop_events_one_savefig _ _ _ He) by lia. reflexivity.
Qed.

(** An epoch that runs to its end leaves the network [postEpoch] makes of
    the network the loop has left. *)
Lemma train_final_ok (p : Params) (e : Z) (s : Suite) :
  result (train p e s) = Ok tt ->
  model (final (train p e s))
  = postEpoch (model (final (train_batches p e 0 (epoch_batches s)
                               (epoch_start s)))).
Proof.
  rewrite train_unfold. cbn zeta.
  destruct (result (train_batches p e 0 (epoch_batches s) (epoch_start s)));
    [reflexivity|discriminate].
Qed.

(** The calls of an epoch, whether it runs to its end or raises. *)
Lemma train_events_shape (p : Params) (e : Z) (s : Suite) :
  exists (writes : Z -> bool) (n : nat) (evs : list event),
    loop_events writes 0 n evs
    /\ ((result (train p e s) = Ok tt
         /\ n = List.length (epoch_batches s)
         /\ events (train p e s) = E_model_train :: evs ++ [E_postEpoch])
        \/ (result (train p e s) = Raise ZeroDivisionError
            /\ events (train p e s) = E_model_train :: evs ++ [])).
Proof.
  destruct (Z.eq_dec (log_interval p) 0) as [Hli|Hli].
  - rewrite train_unfold. cbn zeta.
    destruct (epoch_batches s) as [|[d t] bs].
    + exists (fun _ => false), 0%nat, []. split; [constructor|].
      left. repeat split; reflexivity.
    + rewrite train_batches_zero by exact Hli.
      exists (fun _ => false), 1%nat, (batch_events None ++ []).
      split; [constructor; [reflexivity|constructor]|].
      right. split; reflexivity.
  - destruct (train_events_ok p e s Hli) as (evs & He & Hr & Hev).
    exists (every (log_interval p)), (List.length (epoch_batches s)), evs.
    split; [exact He|]. left. repeat split; assumption.
Qed.

(** One round of the loop leaves the network and the optimizer that
    [round_state] describes, and the module in training mode. *)
Lemma train_step_state (d : Tensor) (t : list Z) (s : Suite) :
  training s = true ->
  (model (final (train_step d t s)), optimizer (final (train_step d t s)))
  = round_state (model s, optimizer s) (d, t)
  /\ training (final (train_step d t s)) = true.
Proof.
  intros H.
  unfold train_step, round_state, bind, optimizer_zero_grad, model_forward,
    loss_backward, optimizer_step, model_rezeroWeights, call.
  cbn. rewrite H. split; reflexivity.
Qed.

(** The rounds of a loop that runs through all its batches. *)
Lemma train_batches_state (p : Params) (e : Z) :
  forall (bs : list (Tensor * list Z)) (i : Z) (s : Suite),
    training s = true ->
    result (train_batches p e i bs s) = Ok tt ->
    (model (final (train_batches p e i bs s)),
     optimizer (final (train_batches p e i bs s)))
    = fold_left round_state bs (model s, optimizer s).
Proof.
  induction bs as [|[d t] bs IH]; intros i s Ht Hr; [reflexivity|].
  rewrite train_batches_cons in Hr |- *.
  destruct (py_mod i (log_interval p)) as [r|ex]; [|discriminate Hr].
  cbn zeta in Hr |- *. cbn [result final] in Hr |- *.
  destruct (train_step_state d t s Ht) as [Hst Htr].
  rewrite (IH _ _ Htr Hr). cbn [fold_left]. rewrite Hst. reflexivity.
Qed.

(** The network and the optimizer an epoch that runs to its end leaves. *)
Lemma train_final_state (p : Params) (e : Z) (s : Suite) :
  result (train p e s) = Ok tt ->
  model (final (train p e s)) = postEpoch (fst (epoch_state s))
  /\ optimizer (final (train p e s)) = snd (epoch_state s).
Proof.
  rewrite train_unfold. cbn zeta.
  destruct (result (train_batches p e 0 (epoch_batches s) (epoch_start s)))
    as [[]|ex] eqn:Hr; [intros _|discriminate].
  pose proof (train_batches_state p e (epoch_batches s) 0 (epoch_start s)
                eq_refl Hr) as H.
  change (fold_left round_state (epoch_batches s)
            (model (epoch_start s), optimizer (epoch_start s)))
    with (epoch_state s) in H.
  rewrite <- H. split; reflexivity.
Qed.

(** An epoch runs to its end exactly when the interval is not zero or the
    loader yields no batch. *)
Lemma train_ok_iff (p : Params) (e : Z) (s : Suite) :
  result (train p e s) = Ok tt
  <-> log_interval p <> 0 \/ epoch_batches s = [].
Proof.
  split.
  - intros Hr. destruct (Z.eq_dec (log_interval p) 0) as [Hli|Hli];
      [right|left; exact Hli].
    rewrite train_unfold in Hr. cbn zeta in Hr.
    destruct (epoch_batches s) as [|[d t] bs]; [reflexivity|].
    rewrite train_batches_zero in Hr by exact Hli. discriminate Hr.
  - intros [Hli|Hbs].
    + destruct (train_events_ok p e s Hli) as (_ & _ & Hok & _). exact Hok.
    + rewrite train_unfold. cbn zeta. rewrite Hbs. reflexivity.
Qed.

(** C6, as amended.  In every epoch of the training loop, [rezeroWeights]
    is called exactly once right after every optimizer step and nowhere
    else, on the network the step has left.  An epoch runs to its end
    exactly when [log_interval] is not zero or the loader yields no batch;
    such an epoch has one optimizer step per batch, calls [postEpoch]
    exactly once, as its last call, and leaves the network [postEpoch]
    makes of the network the rounds of all the batches have left.  With
    [log_interval = 0] and at least one batch the epoch raises after the
    first optimizer step and its [rezeroWeights], and [postEpoch] is not
    called. *)
Theorem train_hooks (p : Params) (e : Z) (s : Suite) :
  (rezero_follows_step (events (train p e s)) = true
   /\ rezero_only_after_step (events (train p e s)) = true
   /\ count is_rezeroWeights (events (train p e s))
      = count is_step (events (train p e s)))
  /\ (result (train p e s) = Ok tt
      <-> log_interval p <> 0 \/ epoch_batches s = [])
  /\ (result (train p e s) = Ok tt ->
      count is_step (events (train p e s)) = List.length (epoch_batches s)
      /\ (exists evs,
             events (train p e s) = evs ++ [E_postEpoch]
             /\ count is_postEpoch evs = 0%nat)
      /\ model (final (train p e s)) = postEpoch (fst (epoch_state s))
      /\ optimizer (final (train p e s)) = snd (epoch_state s))
  /\ (forall (b : Tensor * list Z) (bs : list (Tensor * list Z)),
        log_interval p = 0 ->
        epoch_batches s = b :: bs ->
        result (train p e s) = Raise ZeroDivisionError
        /\ count is_step (events (train p e s)) = 1%nat
        /\ count is_postEpoch (events (train p e s)) = 0%nat
        /\ model (final (train p e s))
           = fst (round_state (model s, optimizer s) b)).
Proof.
  split; [|split; [exact (train_ok_iff p e s)|split]].
  - destruct (train_events_shape p e s)
      as (writes & n & evs & He & [(Hr & Hn & Hev)|(Hr & Hev)]);
      destruct (loop_events_steps _ _ _ _ He) as (Hs & Hz & Hp);
      rewrite Hev.
    + destruct (loop_events_follows _ _ _ _ He [E_postEpoch]) as [Hf Ho].
      change (E_model_train :: evs ++ [E_postEpoch])
        with ([E_model_train] ++ evs ++ [E_postEpoch]).
      rewrite !count_app, Hs, Hz. cbn [app].
      cbn [rezero_follows_step rezero_only_after_step]. rewrite Hf, Ho.
      repeat split; reflexivity.
    + destruct (loop_events_follows _ _ _ _ He []) as [Hf Ho].
      change (E_model_train :: evs ++ [])
        with ([E_model_train] ++ evs ++ []).
      rewrite !count_app, Hs, Hz. cbn [app].
      cbn [rezero_follows_step rezero_only_after_step]. rewrite Hf, Ho.
      repeat split; reflexivity.
  - intros Hok. pose proof (train_final_state p e s Hok) as Hfinal.
    destruct (train_events_shape p e s)
      as (writes & n & evs & He & [(Hr & Hn & Hev)|(Hr & Hev)]);
      [|rewrite Hr in Hok; discriminate Hok].
    destruct (loop_events_steps _ _ _ _ He) as (Hs & Hz & Hp).
    rewrite Hev.
    change (E_model_train :: evs ++ [E_postEpoch])
      with ([E_model_train] ++ evs ++ [E_postEpoch]).
    rewrite !count_app, Hs, <- Hn.
    split; [cbn; lia|]. split; [|exact Hfinal].
    exists (E_model_train :: evs). split; [reflexivity|].
    change (E_model_train :: evs) with ([E_model_train] ++ evs).
    rewrite count_app, Hp. reflexivity.
  - intros [d t] bs Hli Hbs. rewrite train_unfold. cbn zeta. rewrite Hbs.
    rewrite train_batches_zero by exact Hli. cbn [result final events].
    split; [reflexivity|]. split; [reflexivity|]. split; [reflexivity|].
    destruct (train_step_state d t (epoch_start s) eq_refl) as [Hst _].
    change (model s, optimizer s)
      with (model (epoch_start s), optimizer (epoch_start s)).
    rewrite <- Hst. reflexivity.
Qed.

(** C10.  The training loop computes [batch_idx % log_interval] for every
    batch.  With [log_interval >= 1] the test is defined for every batch
    number and the epoch runs to its end without an exception; with
    [log_interval = 0] the test of the first batch raises
    [ZeroDivisionError]: the epoch stops there, after the first optimizer
    step and its zero-weight hook, before any histogram and before
    [postEpoch]. *)
Theorem train_log_interval :
  (forall (p : Params) (e : Z) (s : Suite),
      log_interval p >= 1 ->
      (forall i : Z,
          py_mod i (log_interval p) = Ok (i mod log_interval p))
      /\ result (train p e s) = Ok tt)
  /\ (forall (p : Params) (e : Z) (s : Suite),
        log_interval p = 0 ->
        epoch_batches s <> [] ->
        py_mod 0 (log_interval p) = Raise ZeroDivisionError
        /\ result (train p e s) = Raise ZeroDivisionError
        /\ events (train p e s) = E_model_train :: batch_events None).
Proof.
  split; intros p e s Hli.
  - split.
    + intros i. unfold py_mod.
      destruct (Z.eqb_spec (log_interval p) 0); [lia|reflexivity].
    + destruct (train_events_ok p e s) as (evs & _ & Hr & _); [lia|exact Hr].
  - intros Hbs. split; [now rewrite Hli|].
    rewrite train_unfold. cbn zeta.
    destruct (epoch_batches s) as [|[d t] bs]; [contradiction|].
    rewrite train_batches_zero by exact Hli. split; reflexivity.
Qed.

End TrainFacts.

Section TestFacts.
Context {T : Torch}.

Lemma count_correct_argmax (out : list Row) (target : list Z) :
  count_correct (map argmax out) target =
  Z.of_nat (List.length (filter top1_correct (combine out target))).
Proof.
  unfold count_correct. f_equal.
  revert target. induction out as [|r out IH]; intros [|t target];
    cbn; try reflexivity.
  unfold top1_correct at 1. cbn.
  destruct (argmax r =? t); cbn; now rewrite IH.
Qed.

Lemma spec_num_correct_cons (out : list Row) (target : list Z)
    (outs : list (list Row * list Z)) :
  spec_num_correct ((out, target) :: outs) =
  count_correct (map argmax out) target + spec_num_correct outs.
Proof.
  unfold spec_num_correct, samples. cbn.
  rewrite filter_app, length_app, Nat2Z.inj_add.
  now rewrite count_correct_argmax.
Qed.

Lemma set_model_same (s : Suite) : set_model (model s) s = s.
Proof. now destruct s. Qed.

(** The loop of [test] once the accumulated loss is a float. *)
Lemma test_batches_float (bs : list (Tensor * list Z)) :
  forall (f : float) (c : Z) (s : Suite),
    training s = false ->
    test_batches bs (PyFloat f) c s =
    {| result := Ok (PyFloat (add_losses f (eval_outputs (model s) bs)),
                     c + spec_num_correct (eval_outputs (model s) bs));
       final := set_model (eval_net (model s) bs) s;
       events := repeat E_forward (List.length bs) |}.
Proof.
  induction bs as [|[d t] bs IH]; intros f c s Hs.
  - cbn. unfold pure, spec_num_correct. cbn.
    now rewrite Z.add_0_r, set_model_same.
  - cbn [test_batches]. unfold bind, model_forward, lift. cbn.
    rewrite IH by exact Hs. cbn. rewrite Hs.
    rewrite spec_num_correct_cons, Z.add_assoc. reflexivity.
Qed.

(** The loop of [test] from its initial accumulators. *)
Lemma test_batches_run (bs : list (Tensor * list Z)) (s : Suite) :
  training s = false ->
  test_batches bs (PyInt 0) 0 s =
  {| result := Ok (match bs with
                   | [] => PyInt 0
                   | _ :: _ => PyFloat (sum_loss (eval_outputs (model s) bs))
                   end,
                   spec_num_correct (eval_outputs (model s) bs));
     final := set_model (eval_net (model s) bs) s;
     events := repeat E_forward (List.length bs) |}.
Proof.
  intros Hs. destruct bs as [|[d t] bs].
  - cbn. unfold pure. now rewrite set_model_same.
  - cbn [test_batches]. unfold bind, model_forward, lift. cbn.
    rewrite test_batches_float by exact Hs. cbn. rewrite Hs.
    rewrite spec_num_correct_cons. reflexivity.
Qed.

(** What a call of [test] leaves behind. *)
Lemma test_run (p : Params) (loader : DataLoader) (s : Suite) :
  test p loader s =
  {| result :=
       if dataset_len loader =? 0 then Raise ZeroDivisionError
       else Ok (spec_test (eval_outputs (model s) (test_batches_of loader s))
                  (dataset_len loader));
     final := test_final loader s;
     events := E_model_eval
                 :: repeat E_forward (List.length (test_batches_of loader s)) |}.
Proof.
  unfold test, bind, model_eval, call, loader_batches. cbn.
  fold (test_batches_of loader s).
  rewrite test_batches_run by reflexivity. cbn.
  unfold test_final, spec_test, spec_test_loss, spec_testerror, lift.
  destruct (test_batches_of loader s) as [|[d t] bs]; cbn;
    destruct (dataset_len loader =? 0); cbn; rewrite ?app_nil_r;
    try reflexivity.
Qed.

(** C5.  For every data loader (with a nonempty dataset, as the division
    needs), the mapping [test] returns has: under [num_correct] the number of
    samples of the batches whose top-1 prediction, the argmax of the output
    row, is the label; under [test_loss] the summed losses of the batches
    divided by the size of the dataset; under [testerror] 100 times
    [num_correct] divided by the size of the dataset. *)
Theorem test_returns (p : Params) (loader : DataLoader) (s : Suite) :
  dataset_len loader <> 0 ->
  let outs := eval_outputs (model s) (test_batches_of loader s) in
  let n := dataset_len loader in
  let correct := Z.of_nat (List.length (filter top1_correct (samples outs))) in
  result (test p loader s) =
  Ok [(KStr "num_correct", PyInt correct);
      (KStr "test_loss",
       match outs with
       | [] => PyInt 0
       | _ :: _ => PyFloat (sum_loss outs / float_of_Z n)%float
       end);
      (KStr "testerror",
       PyFloat (100 * float_of_Z correct / float_of_Z n)%float)].
Proof.
  intros Hn outs n correct. rewrite test_run. cbn [result].
  destruct (Z.eqb_spec (dataset_len loader) 0) as [E|_]; [contradiction|].
  reflexivity.
Qed.

(** An empty dataset makes [test] raise. *)
Lemma test_empty_dataset (p : Params) (loader : DataLoader) (s : Suite) :
  dataset_len loader = 0 ->
  result (test p loader s) = Raise ZeroDivisionError.
Proof. intros Hn. rewrite test_run. cbn [result]. now rewrite Hn. Qed.


(** Inference passes keep what every single pass keeps. *)
Lemma eval_net_frame {A : Type} (phi : Net -> A) :
  (forall (net : Net) (d : Tensor),
      phi (snd (forward false false net d)) = phi net) ->
  forall (bs : list (Tensor * list Z)) (net : Net),
    phi (eval_net net bs) = phi net.
Proof.
  intros Hphi. induction bs as [|[d t] bs IH]; intros net; [reflexivity|].
  cbn. now rewrite IH, Hphi.
Qed.


End TestFacts.

Section SweepFacts.
Context {T : Torch}.

(** One round of the loop of [runNoiseTests]. *)
Lemma noise_tests_cons (p : Params) (noise : float) (ns : list float)
    (ret : pydict) (tc : Z) (s : Suite) :
  noise_tests p (noise :: ns) ret (PyInt tc) s =
  if dataset_len (noise_loader p s noise) =? 0 then
    {| result := Raise ZeroDivisionError; final := noise_final p s noise;
       events := noise_events p s noise |}
  else
    let r := noise_result p s noise in
    let o := noise_tests p ns (dict_set (KFloat noise) (PyDict r) ret)
               (PyInt (tc + num_correct_of r)) (noise_final p s noise) in
    {| result := result o; final := final o;
       events := noise_events p s noise ++ events o |}.
Proof.
  cbn [noise_tests]. rewrite bind_get, bind_call, bind_unfold.
  fold (noise_loader p s noise). rewrite test_run.
  cbn [result final events].
  unfold noise_final, noise_events, noise_result.
  destruct (dataset_len (noise_loader p s noise) =? 0); [reflexivity|].
  cbn. reflexivity.
Qed.

Lemma datasets_nonempty_tail (p : Params) (s : Suite) (noise : float)
    (ns : list float) :
  datasets_nonempty p s (noise :: ns) ->
  datasets_nonempty p (noise_final p s noise) ns.
Proof. intros H n Hn. apply (H n). now right. Qed.

(** A sweep none of whose datasets is empty. *)
Lemma noise_tests_run (p : Params) :
  forall (ns : list float) (ret : pydict) (tc : Z) (s : Suite),
    datasets_nonempty p s ns ->
    noise_tests p ns ret (PyInt tc) s =
    {| result :=
         Ok (set_noise_results ret (combine ns (sweep_results p ns s)),
             PyInt (tc + sum_Z (map num_correct_of (sweep_results p ns s))));
       final := sweep_final p ns s;
       events := sweep_events p ns s |}.
Proof.
  induction ns as [|noise ns IH]; intros ret tc s H.
  - cbn. unfold pure. now rewrite Z.add_0_r.
  - rewrite noise_tests_cons.
    destruct (Z.eqb_spec (dataset_len (noise_loader p s noise)) 0) as [E|_].
    + exfalso. apply (H noise); [now left|exact E].
    + cbn zeta. rewrite IH by (eapply datasets_nonempty_tail; exact H).
      cbn [result final events sweep_results sweep_final sweep_events
           combine map sum_Z fold_right set_noise_results fold_left fst snd].
      now rewrite Z.add_assoc.
Qed.

(** A sweep that returns has met no empty dataset. *)
Lemma noise_tests_ok_nonempty (p : Params) :
  forall (ns : list float) (ret : pydict) (tc : Z) (s : Suite)
         (x : pydict * pyval),
    result (noise_tests p ns ret (PyInt tc) s) = Ok x ->
    datasets_nonempty p s ns.
Proof.
  induction ns as [|noise ns IH]; intros ret tc s x Hx n Hn; [destruct Hn|].
  rewrite noise_tests_cons in Hx.
  destruct (Z.eqb_spec (dataset_len (noise_loader p s noise)) 0) as [E|NE];
    [discriminate|].
  destruct Hn as [<-|Hn]; [exact NE|].
  cbn zeta in Hx. cbn [result] in Hx.
  exact (IH _ _ _ _ Hx n Hn).
Qed.

Lemma sweep_results_length (p : Params) :
  forall (ns : list float) (s : Suite),
    List.length (sweep_results p ns s) = List.length ns.
Proof. induction ns as [|n ns IH]; intros s; cbn; now rewrite ?IH. Qed.

(** The results of a sweep are the values of its calls of [test]. *)
Lemma noise_evals_results (p : Params) :
  forall (ns : list float) (s : Suite),
    datasets_nonempty p s ns ->
    map fst (noise_evals p ns s) = ns
    /\ Forall2 (fun e r => result (snd e) = Ok r)
         (noise_evals p ns s) (sweep_results p ns s).
Proof.
  induction ns as [|noise ns IH]; intros s H; [now split; constructor|].
  cbn [noise_evals sweep_results]. rewrite test_run. cbn [result final].
  destruct (Z.eqb_spec (dataset_len (noise_loader p s noise)) 0) as [E|_].
  - exfalso. apply (H noise); [now left|exact E].
  - destruct (IH (noise_final p s noise)) as [IH1 IH2];
      [eapply datasets_nonempty_tail; exact H|].
    split; [cbn [map fst]; f_equal; exact IH1|].
    constructor; [reflexivity|exact IH2].
Qed.

(** The dictionary [runNoiseTests] builds, entry by entry. *)
Lemma sweep_dict_built (rs : list pydict) (tc e : pyval) :
  List.length rs = 11%nat ->
  dict_get (KFloat 0.0)
    (dict_set (KStr "totalCorrect") tc
       (set_noise_results [] (combine noise_levels rs)))
  = option_map PyDict (hd_error rs)
  /\ dict_set (KStr "testerror") e
       (dict_set (KStr "totalCorrect") tc
          (set_noise_results [] (combine noise_levels rs)))
     = sweep_dict rs tc e.
Proof.
  intros Hlen.
  do 12 (destruct rs as [|? rs]; try discriminate Hlen).
  split; vm_compute; reflexivity.
Qed.

(** Every result of a sweep has an integer entry [num_correct]. *)
Lemma sweep_results_num_correct (p : Params) :
  forall (ns : list float) (s : Suite),
    Forall (fun r => dict_get (KStr "num_correct") r
                     = Some (PyInt (num_correct_of r)))
      (sweep_results p ns s).
Proof.
  induction ns as [|n ns IH]; intros s; constructor; [|apply IH].
  reflexivity.
Qed.

(** Every result of a sweep has an entry [testerror]. *)
Lemma sweep_results_testerror (p : Params) :
  forall (ns : list float) (s : Suite),
    Forall (fun r => exists e, dict_get (KStr "testerror") r = Some e)
      (sweep_results p ns s).
Proof.
  induction ns as [|n ns IH]; intros s; constructor; [|apply IH].
  eexists. reflexivity.
Qed.

(** A sweep none of whose datasets is empty returns its dictionary. *)
Lemma runNoiseTests_run (p : Params) (s : Suite) :
  datasets_nonempty p s noise_levels ->
  exists (r0 : pydict) (e : pyval),
    hd_error (sweep_results p noise_levels s) = Some r0
    /\ dict_get (KStr "testerror") r0 = Some e
    /\ runNoiseTests p s =
       {| result :=
            Ok (sweep_dict (sweep_results p noise_levels s)
                  (PyInt (sum_Z (map num_correct_of
                                   (sweep_results p noise_levels s)))) e);
          final := sweep_final p noise_levels s;
          events := sweep_events p noise_levels s |}.
Proof.
  intros H.
  pose proof (sweep_results_length p noise_levels s) as Hlen.
  pose proof (sweep_results_testerror p noise_levels s) as Hte.
  unfold runNoiseTests. rewrite bind_unfold, noise_tests_run by exact H.
  cbn [result final events]. rewrite Z.add_0_l.
  set (rs := sweep_results p noise_levels s) in *.
  set (tc := PyInt (sum_Z (map num_correct_of rs))).
  destruct rs as [|r0 rs'] eqn:Ers; [discriminate Hlen|].
  inversion Hte as [|? ? [e He] _]; subst.
  exists r0, e. split; [reflexivity|]. split; [exact He|].
  destruct (sweep_dict_built (r0 :: rs') tc e Hlen) as [Hget Hset].
  rewrite bind_unfold. unfold getitem. rewrite Hget.
  cbn [hd_error option_map pure result final events].
  rewrite bind_unfold. unfold subscript, getitem. rewrite He.
  cbn [pure result final events]. rewrite Hset, !app_nil_r. reflexivity.
Qed.

Lemma runNoiseTests_ok_nonempty (p : Params) (s : Suite) (ret : pydict) :
  result (runNoiseTests p s) = Ok ret ->
  datasets_nonempty p s noise_levels.
Proof.
  unfold runNoiseTests. rewrite bind_unfold.
  destruct (result (noise_tests p noise_levels [] (PyInt 0) s)) as [x|ex] eqn:E;
    [|discriminate].
  intros _. exact (noise_tests_ok_nonempty p _ _ _ _ _ E).
Qed.

(** After its loop [runNoiseTests] calls no collaborator and leaves the
    state as it is, whether it returns or raises. *)
Lemma runNoiseTests_final_events (p : Params) (s : Suite) :
  final (runNoiseTests p s) = final (noise_tests p noise_levels [] (PyInt 0) s)
  /\ events (runNoiseTests p s)
     = events (noise_tests p noise_levels [] (PyInt 0) s).
Proof.
  unfold runNoiseTests. apply bind_quiet. intros [ret tc].
  apply quiet_bind; [apply quiet_getitem|]. intros r0.
  apply quiet_bind; [apply quiet_subscript|]. intros e.
  apply quiet_pure.
Qed.

Lemma no_training_call_app (l l' : list event) :
  no_training_call (l ++ l') = no_training_call l && no_training_call l'.
Proof. apply forallb_app. Qed.

Lemma no_training_call_forward (n : nat) :
  no_training_call (repeat E_forward n) = true.
Proof. induction n as [|n IH]; [reflexivity|exact IH]. Qed.

Lemma no_training_call_noise (p : Params) (s : Suite) (noise : float) :
  no_training_call (noise_events p s noise) = true.
Proof. cbn. apply no_training_call_forward. Qed.

(** The loop of [runNoiseTests] keeps whatever the inference passes keep,
    keeps the optimizer and makes no training call, whether it returns or
    raises. *)
Lemma noise_tests_frame {A : Type} (phi : Net -> A) (p : Params) :
  (forall (net : Net) (d : Tensor),
      phi (snd (forward false false net d)) = phi net) ->
  forall (ns : list float) (ret : pydict) (tc : Z) (s : Suite),
    phi (model (final (noise_tests p ns ret (PyInt tc) s))) = phi (model s)
    /\ optimizer (final (noise_tests p ns ret (PyInt tc) s)) = optimizer s
    /\ no_training_call (events (noise_tests p ns ret (PyInt tc) s)) = true.
Proof.
  intros Hphi. induction ns as [|noise ns IH]; intros ret tc s.
  - repeat split; reflexivity.
  - rewrite noise_tests_cons.
    assert (Hm : phi (model (noise_final p s noise)) = phi (model s))
      by (cbn; apply eval_net_frame, Hphi).
    destruct (dataset_len (noise_loader p s noise) =? 0).
    + cbn [final events]. rewrite no_training_call_noise.
      split; [exact Hm|split; reflexivity].
    + cbn zeta. cbn [final events].
      destruct (IH (dict_set (KFloat noise) (PyDict (noise_result p s noise))
                      ret)
                  (tc + num_correct_of (noise_result p s noise))
                  (noise_final p s noise)) as (IH1 & IH2 & IH3).
      rewrite no_training_call_app, no_training_call_noise, IH1, IH2, IH3.
      split; [exact Hm|split; reflexivity].
Qed.

(** Once in evaluation mode the network stays in it through the loop. *)
Lemma noise_tests_keeps_eval (p : Params) :
  forall (ns : list float) (ret : pydict) (tc : Z) (s : Suite),
    training s = false ->
    training (final (noise_tests p ns ret (PyInt tc) s)) = false.
Proof.
  induction ns as [|noise ns IH]; intros ret tc s Hs; [exact Hs|].
  rewrite noise_tests_cons.
  destruct (dataset_len (noise_loader p s noise) =? 0); [reflexivity|].
  cbn zeta. cbn [final]. apply IH. reflexivity.
Qed.

(** C7.  The noise sweep does not train: whatever part [phi] of the network
    (its weights and learned parameters) an inference pass leaves unchanged
    is the same after [runNoiseTests] as before it, the optimizer is
    unchanged, and no training call (no [train()], [zero_grad], [backward],
    optimizer step, [rezeroWeights] or [postEpoch]) is made; the sweep only
    leaves the module in evaluation mode.  This holds whether the sweep
    returns or raises. *)
Theorem runNoiseTests_frame {A : Type} (phi : Net -> A) (p : Params)
    (s : Suite) :
  (forall (net : Net) (d : Tensor),
      phi (snd (forward false false net d)) = phi net) ->
  phi (model (final (runNoiseTests p s))) = phi (model s)
  /\ optimizer (final (runNoiseTests p s)) = optimizer s
  /\ no_training_call (events (runNoiseTests p s)) = true
  /\ training (final (runNoiseTests p s)) = false.
Proof.
  intros Hphi.
  destruct (runNoiseTests_final_events p s) as [-> ->].
  destruct (noise_tests_frame phi p Hphi noise_levels [] 0 s)
    as (H1 & H2 & H3).
  repeat split; try assumption.
  unfold noise_levels. rewrite noise_tests_cons.
  destruct (dataset_len (noise_loader p s 0) =? 0); [reflexivity|].
  cbn zeta. cbn [final]. apply noise_tests_keeps_eval. reflexivity.
Qed.

(** The entries of the dictionary of a sweep. *)
Lemma sweep_dict_get (rs : list pydict) (tc e : pyval) :
  List.length rs = 11%nat ->
  Forall2 (fun noise r =>
             dict_get (KFloat noise) (sweep_dict rs tc e) = Some (PyDict r))
    noise_levels rs
  /\ dict_get (KStr "totalCorrect") (sweep_dict rs tc e) = Some tc
  /\ dict_get (KStr "testerror") (sweep_dict rs tc e) = Some e.
Proof.
  intros Hlen.
  do 12 (destruct rs as [|? rs]; try discriminate Hlen).
  split; [|split; vm_compute; reflexivity].
  repeat (constructor; [vm_compute; reflexivity|]). constructor.
Qed.

Lemma filter_DataLoader_sweep (p : Params) :
  forall (ns : list float) (s : Suite),
    filter is_DataLoader (sweep_events p ns s) = map E_DataLoader ns.
Proof.
  induction ns as [|noise ns IH]; intros s; [reflexivity|].
  cbn [sweep_events]. rewrite filter_app, IH. unfold noise_events.
  cbn [filter is_DataLoader map app]. f_equal.
  assert (H : forall n, filter is_DataLoader (repeat E_forward n) = [])
    by (induction n as [|n IHn]; [reflexivity|exact IHn]).
  now rewrite H.
Qed.

(** C2.  A noise sweep evaluates the eleven noise levels 0.0, 0.05, ..., 0.5
    in this order, each once, and whenever it returns (which it does as soon
    as no dataset is empty) its mapping holds the result of each evaluation
    under its noise level and, under [totalCorrect], the sum of the
    [num_correct] of these eleven results. *)
Theorem runNoiseTests_totalCorrect (p : Params) (s : Suite) :
  (datasets_nonempty p s noise_levels ->
   exists ret : pydict, result (runNoiseTests p s) = Ok ret)
  /\ forall ret : pydict,
       result (runNoiseTests p s) = Ok ret ->
       exists rs : list pydict,
         noise_levels
         = [0.0; 0.05; 0.1; 0.15; 0.2; 0.25; 0.3; 0.35; 0.4; 0.45; 0.5]%float
         /\ map fst (noise_evals p noise_levels s) = noise_levels
         /\ Forall2 (fun ev r => result (snd ev) = Ok r)
              (noise_evals p noise_levels s) rs
         /\ Forall2 (fun noise r =>
                       dict_get (KFloat noise) ret = Some (PyDict r))
              noise_levels rs
         /\ Forall (fun r => dict_get (KStr "num_correct") r
                              = Some (PyInt (num_correct_of r))) rs
         /\ dict_get (KStr "totalCorrect") ret
            = Some (PyInt (sum_Z (map num_correct_of rs)))
         /\ filter is_DataLoader (events (runNoiseTests p s))
            = map E_DataLoader noise_levels.
Proof.
  split.
  - intros H. destruct (runNoiseTests_run p s H) as (r0 & e & _ & _ & ->).
    eexists. reflexivity.
  - intros ret Hret.
    pose proof (runNoiseTests_ok_nonempty p s ret Hret) as H.
    destruct (runNoiseTests_run p s H) as (r0 & e & _ & _ & Hrun).
    rewrite Hrun in Hret |- *. cbn [result events] in *.
    injection Hret as <-.
    destruct (noise_evals_results p noise_levels s H) as [Hfst Hev].
    destruct (sweep_dict_get (sweep_results p noise_levels s)
                (PyInt (sum_Z (map num_correct_of
                                 (sweep_results p noise_levels s)))) e
                (sweep_results_length p noise_levels s)) as (Hg & Htc & _).
    exists (sweep_results p noise_levels s).
    split; [reflexivity|]. split; [exact Hfst|]. split; [exact Hev|].
    split; [exact Hg|]. split; [apply sweep_results_num_correct|].
    split; [exact Htc|].
    apply filter_DataLoader_sweep.
Qed.

End SweepFacts.

(** ** Dictionaries *)

Lemma dict_get_set_same (k : pykey) (v : pyval) (d : pydict) :
  key_eqb k k = true -> dict_get k (dict_set k v d) = Some v.
Proof.
  intros Hk. induction d as [|[k' v'] d IH]; cbn.
  - now rewrite Hk.
  - destruct (key_eqb k' k) eqn:E; cbn; now rewrite E.
Qed.

(** The dictionary of a sweep folded into the empty result, and the entry
    [elapsedTime] added to it. *)
Lemma sweep_dict_update (rs : list pydict) (tc e v : pyval) :
  List.length rs = 11%nat ->
  dict_update [] (sweep_dict rs tc e) = sweep_dict rs tc e
  /\ dict_update (sweep_dict rs tc e) [(KStr "elapsedTime", v)]
     = sweep_dict rs tc e ++ [(KStr "elapsedTime", v)]
  /\ dict_get (KStr "elapsedTime")
       (sweep_dict rs tc e ++ [(KStr "elapsedTime", v)]) = Some v.
Proof.
  intros Hlen.
  do 12 (destruct rs as [|? rs]; try discriminate Hlen).
  repeat split; vm_compute; reflexivity.
Qed.

Lemma dict_get_app_l (k : pykey) (v : pyval) (d d' : pydict) :
  dict_get k d = Some v -> dict_get k (d ++ d') = Some v.
Proof.
  induction d as [|[k' v'] d IH]; cbn; [discriminate|].
  destruct (key_eqb k' k); [trivial|exact IH].
Qed.

Lemma Forall2_exists_r {A B : Type} (R : A -> B -> Prop) (l : list A)
    (l' : list B) :
  Forall2 R l l' -> Forall (fun a => exists b, R a b) l.
Proof. induction 1; constructor; eauto. Qed.

Section IterateFacts.
Context {T : Torch}.

(** What a sweep that returns has returned. *)
Lemma runNoiseTests_shape (p : Params) (s : Suite) (ret : pydict) :
  result (runNoiseTests p s) = Ok ret ->
  exists (rs : list pydict) (tc e : pyval) (r0 : pydict),
    List.length rs = 11%nat
    /\ ret = sweep_dict rs tc e
    /\ result (test p (noise_loader p s 0.0) s) = Ok r0
    /\ dict_get (KFloat 0.0) ret = Some (PyDict r0)
    /\ dict_get (KStr "testerror") r0 = Some e.
Proof.
  intros Hret.
  pose proof (runNoiseTests_ok_nonempty p s ret Hret) as H.
  destruct (runNoiseTests_run p s H) as (r0 & e & Hhd & He & Hrun).
  rewrite Hrun in Hret. cbn [result] in Hret. injection Hret as <-.
  pose proof (sweep_results_length p noise_levels s) as Hlen.
  eexists _, _, e, r0. split; [exact Hlen|]. split; [reflexivity|].
  cbn [sweep_results noise_levels hd_error] in Hhd. injection Hhd as Hr0.
  subst r0.
  split.
  - rewrite test_run. cbn [result].
    destruct (Z.eqb_spec (dataset_len (noise_loader p s 0)) 0) as [E|_].
    + exfalso. apply (H 0%float); [now left|exact E].
    + reflexivity.
  - split; [|exact He].
    destruct (sweep_dict_get _ (PyInt (sum_Z (map num_correct_of
                                  (sweep_results p noise_levels s)))) e Hlen)
      as (Hg & _ & _).
    cbn [sweep_results noise_levels] in Hg.
    inversion Hg as [|? ? ? ? Hhead _]; subst. exact Hhead.
Qed.


Lemma iterate_unfold (p : Params) (rep i : Z) :
  iterate p rep i =
  bind (train p i)
    (fun _ =>
       bind (if i =? iterations p - 1 then iterate_sweep p else pure [])
         iterate_finish).
Proof. unfold iterate, iterate_sweep, iterate_finish. reflexivity. Qed.

(** The end of [iterate] adds the entry [elapsedTime]. *)
Lemma iterate_finish_result (ret : pydict) (s : Suite) :
  result (iterate_finish ret s)
  = Ok (dict_set (KStr "elapsedTime") (elapsed s) ret).
Proof.
  unfold iterate_finish.
  rewrite (bind_result_ok time_now _ s (time_time (clock s)) eq_refl).
  rewrite bind_get. cbn [dict_update fold_left fst snd].
  change (final (time_now s)) with (tick s).
  change (PyFloat (time_time (clock s) - startTime (tick s))%float)
    with (elapsed s).
  rewrite bind_unfold. unfold getitem.
  rewrite dict_get_set_same by reflexivity.
  cbn [pure result final events].
  rewrite (bind_result_ok print _ (tick s) tt eq_refl). reflexivity.
Qed.

(** The branch of the last iteration returns what the sweep returns. *)
Lemma iterate_sweep_result (p : Params) (s : Suite) (rs : list pydict)
    (tc e : pyval) :
  List.length rs = 11%nat ->
  result (runNoiseTests p s) = Ok (sweep_dict rs tc e) ->
  result (iterate_sweep p s) = Ok (sweep_dict rs tc e)
  /\ final (iterate_sweep p s) = final (runNoiseTests p s).
Proof.
  intros Hlen Hsweep.
  destruct (sweep_dict_get rs tc e Hlen) as (_ & Htc & Hte).
  destruct (sweep_dict_update rs tc e e Hlen) as (Hup & _ & _).
  unfold iterate_sweep. split.
  - rewrite (bind_result_ok _ _ _ _ Hsweep). cbn beta zeta. rewrite Hup.
    rewrite (getitem_some _ _ _ Htc), bind_pure.
    rewrite (getitem_some _ _ _ Hte), bind_pure.
    now rewrite (bind_result_ok print _ _ tt eq_refl).
  - rewrite (bind_final_ok _ _ _ _ Hsweep). cbn beta zeta. rewrite Hup.
    rewrite (getitem_some _ _ _ Htc), bind_pure.
    rewrite (getitem_some _ _ _ Hte), bind_pure.
    now rewrite (bind_final_ok print _ _ tt eq_refl).
Qed.

Lemma iterate_sweep_raise (p : Params) (s : Suite) (ex : exn) :
  result (runNoiseTests p s) = Raise ex ->
  result (iterate_sweep p s) = Raise ex.
Proof. apply bind_result_raise. Qed.

(** An exception of [train] goes through [iterate]. *)
Lemma iterate_raise_train (p : Params) (rep i : Z) (s : Suite) (ex : exn) :
  result (train p i s) = Raise ex ->
  result (iterate p rep i s) = Raise ex.
Proof. rewrite iterate_unfold. apply bind_result_raise. Qed.

(** An iteration that is not the last one. *)
Lemma iterate_run_not_last (p : Params) (rep i : Z) (s : Suite) :
  i <> iterations p - 1 ->
  result (train p i s) = Ok tt ->
  result (iterate p rep i s)
  = Ok [(KStr "elapsedTime", elapsed (final (train p i s)))].
Proof.
  intros Hi Htrain. rewrite iterate_unfold.
  rewrite (bind_result_ok _ _ _ _ Htrain).
  destruct (Z.eqb_spec i (iterations p - 1)) as [E|_]; [contradiction|].
  rewrite bind_pure. apply iterate_finish_result.
Qed.

(** An exception of the sweep goes through the last iteration. *)
Lemma iterate_raise_sweep (p : Params) (rep i : Z) (s : Suite) (ex : exn) :
  i = iterations p - 1 ->
  result (train p i s) = Ok tt ->
  result (runNoiseTests p (final (train p i s))) = Raise ex ->
  result (iterate p rep i s) = Raise ex.
Proof.
  intros Hi Htrain Hsweep. rewrite iterate_unfold.
  rewrite (bind_result_ok _ _ _ _ Htrain).
  destruct (Z.eqb_spec i (iterations p - 1)) as [_|NE]; [|contradiction].
  apply bind_result_raise, iterate_sweep_raise, Hsweep.
Qed.

(** The last iteration, when the sweep returns. *)
Lemma iterate_run_last (p : Params) (rep i : Z) (s : Suite)
    (rs : list pydict) (tc e : pyval) :
  i = iterations p - 1 ->
  result (train p i s) = Ok tt ->
  List.length rs = 11%nat ->
  result (runNoiseTests p (final (train p i s))) = Ok (sweep_dict rs tc e) ->
  result (iterate p rep i s) =
  Ok (sweep_dict rs tc e
        ++ [(KStr "elapsedTime",
             elapsed (final (runNoiseTests p (final (train p i s)))))]).
Proof.
  intros Hi Htrain Hlen Hsweep. rewrite iterate_unfold.
  rewrite (bind_result_ok _ _ _ _ Htrain).
  destruct (Z.eqb_spec i (iterations p - 1)) as [_|NE]; [|contradiction].
  destruct (iterate_sweep_result p _ rs tc e Hlen Hsweep) as [Hr Hf].
  rewrite (bind_result_ok _ _ _ _ Hr), iterate_finish_result, Hf.
  destruct (sweep_dict_update rs tc e
              (elapsed (final (runNoiseTests p (final (train p i s))))) Hlen)
    as (_ & Hset & _).
  cbn [dict_update fold_left fst snd] in Hset. now rewrite Hset.
Qed.

(** [iterate] returns when [train] and, in the last iteration, the sweep
    have what they need. *)
Lemma iterate_returns (p : Params) (rep i : Z) (s : Suite) :
  log_interval p <> 0 ->
  (i = iterations p - 1 ->
   datasets_nonempty p (final (train p i s)) noise_levels) ->
  exists ret : pydict, result (iterate p rep i s) = Ok ret.
Proof.
  intros Hli Hne.
  destruct (train_events_ok p i s Hli) as (evs & _ & Htrain & _).
  destruct (Z.eq_dec i (iterations p - 1)) as [Hi|Hi].
  - destruct (runNoiseTests_run p _ (Hne Hi)) as (r0 & e & _ & _ & Hrun).
    eexists. eapply iterate_run_last; [exact Hi|exact Htrain| |].
    + apply (sweep_results_length p noise_levels).
    + rewrite Hrun. reflexivity.
  - eexists. apply iterate_run_not_last; assumption.
Qed.

(** What [iterate] returns, by cases on the iteration. *)
Lemma iterate_shape (p : Params) (rep i : Z) (s : Suite) (ret : pydict) :
  result (iterate p rep i s) = Ok ret ->
  (i <> iterations p - 1
   /\ ret = [(KStr "elapsedTime", elapsed (final (train p i s)))])
  \/ (i = iterations p - 1
      /\ exists (rs : list pydict) (tc e v : pyval) (r0 : pydict),
          List.length rs = 11%nat
          /\ ret = sweep_dict rs tc e ++ [(KStr "elapsedTime", v)]
          /\ result (test p (noise_loader p (final (train p i s)) 0.0)
                       (final (train p i s))) = Ok r0
          /\ dict_get (KFloat 0.0) (sweep_dict rs tc e) = Some (PyDict r0)
          /\ dict_get (KStr "testerror") r0 = Some e).
Proof.
  intros Hret.
  destruct (result (train p i s)) as [[]|ex] eqn:Htrain;
    [|rewrite (iterate_raise_train p rep i s ex Htrain) in Hret;
      discriminate].
  destruct (Z.eq_dec i (iterations p - 1)) as [Hi|Hi].
  - right. split; [exact Hi|].
    destruct (result (runNoiseTests p (final (train p i s))))
      as [r|ex] eqn:Hsweep;
      [|rewrite (iterate_raise_sweep p rep i s ex Hi Htrain Hsweep) in Hret;
        discriminate].
    destruct (runNoiseTests_shape p _ r Hsweep)
      as (rs & tc & e & r0 & Hlen & -> & Ht & Hg & He).
    rewrite (iterate_run_last p rep i s rs tc e Hi Htrain Hlen Hsweep)
      in Hret.
    injection Hret as <-. eexists rs, tc, e, _, r0. repeat split; assumption.
  - left. split; [exact Hi|].
    rewrite (iterate_run_not_last p rep i s Hi Htrain) in Hret.
    now injection Hret as <-.
Qed.

(** C3.  The entry [testerror] of the mapping a noise sweep returns is the
    [testerror] of the evaluation recorded for noise level 0.0, which is the
    first evaluation of the sweep; so the [testerror] of the result of the
    last iteration is the [testerror] of the evaluation at noise level 0.0
    made after the training of that iteration.  The sweep returns as soon as
    no dataset is empty, and the last iteration returns as soon as
    [log_interval] is not zero and no dataset of its sweep is empty. *)
Theorem iterate_testerror (p : Params) (rep i : Z) (s : Suite) :
  (datasets_nonempty p s noise_levels ->
   exists ret : pydict, result (runNoiseTests p s) = Ok ret)
  /\ (forall ret : pydict,
        result (runNoiseTests p s) = Ok ret ->
        exists (r0 : pydict) (e : pyval),
          result (test p (noise_loader p s 0.0) s) = Ok r0
          /\ dict_get (KFloat 0.0) ret = Some (PyDict r0)
          /\ dict_get (KStr "testerror") r0 = Some e
          /\ dict_get (KStr "testerror") ret = Some e)
  /\ (i = iterations p - 1 ->
      log_interval p <> 0 ->
      datasets_nonempty p (final (train p i s)) noise_levels ->
      exists ret : pydict, result (iterate p rep i s) = Ok ret)
  /\ (forall ret : pydict,
        i = iterations p - 1 ->
        result (iterate p rep i s) = Ok ret ->
        exists (r0 : pydict) (e : pyval),
          result (test p (noise_loader p (final (train p i s)) 0.0)
                    (final (train p i s))) = Ok r0
          /\ dict_get (KFloat 0.0) ret = Some (PyDict r0)
          /\ dict_get (KStr "testerror") r0 = Some e
          /\ dict_get (KStr "testerror") ret = Some e).
Proof.
  split; [|split; [|split]].
  - intros H. destruct (runNoiseTests_run p s H) as (r0 & e & _ & _ & ->).
    eexists. reflexivity.
  - intros ret Hret.
    destruct (runNoiseTests_shape p s ret Hret)
      as (rs & tc & e & r0 & Hlen & -> & Ht & Hg & He).
    destruct (sweep_dict_get rs tc e Hlen) as (_ & _ & Hte).
    exists r0, e. repeat split; assumption.
  - intros Hi Hli Hne. apply iterate_returns; [exact Hli|].
    intros _. exact Hne.
  - intros ret Hi Hret.
    destruct (iterate_shape p rep i s ret Hret)
      as [[NE _]|(_ & rs & tc & e & v & r0 & Hlen & -> & Ht & Hg & He)];
      [contradiction|].
    destruct (sweep_dict_get rs tc e Hlen) as (_ & _ & Hte).
    exists r0, e. split; [exact Ht|]. split; [|split; [exact He|]].
    + apply dict_get_app_l, Hg.
    + apply dict_get_app_l, Hte.
Qed.

(** C4.  The mapping [iterate] returns (and it returns whenever
    [log_interval] is not zero and, in the last iteration, no dataset of the
    sweep is empty) always has the key [elapsedTime]; it has the metrics of
    the noise sweep, [totalCorrect], [testerror] and a sub-mapping under each
    of the noise levels, if and only if the iteration index is
    [iterations - 1]. *)
Theorem iterate_keys (p : Params) (rep i : Z) (s : Suite) :
  (log_interval p <> 0 ->
   (i = iterations p - 1 ->
    datasets_nonempty p (final (train p i s)) noise_levels) ->
   exists ret : pydict, result (iterate p rep i s) = Ok ret)
  /\ forall ret : pydict,
       result (iterate p rep i s) = Ok ret ->
       has_key (KStr "elapsedTime") ret = true
       /\ ((has_key (KStr "totalCorrect") ret = true
            /\ has_key (KStr "testerror") ret = true
            /\ Forall (fun noise =>
                         exists r, dict_get (KFloat noise) ret
                                   = Some (PyDict r))
                 noise_levels)
           <-> i = iterations p - 1).
Proof.
  split; [apply iterate_returns|].
  intros ret Hret.
  destruct (iterate_shape p rep i s ret Hret)
    as [[NE ->]|(Hi & rs & tc & e & v & r0 & Hlen & -> & _)].
  - split; [reflexivity|]. split; [|contradiction].
    intros (Htc & _). discriminate Htc.
  - destruct (sweep_dict_get rs tc e Hlen) as (Hg & Htc & Hte).
    destruct (sweep_dict_update rs tc e v Hlen) as (_ & _ & Hel).
    unfold has_key. rewrite Hel.
    rewrite (dict_get_app_l _ _ _ [(KStr "elapsedTime", v)] Htc).
    rewrite (dict_get_app_l _ _ _ [(KStr "elapsedTime", v)] Hte).
    split; [reflexivity|]. split; [intros _; exact Hi|]. intros _.
    split; [reflexivity|]. split; [reflexivity|].
    apply Forall2_exists_r with (l' := rs).
    eapply Forall2_impl; [|exact Hg].
    intros noise r H. apply dict_get_app_l, H.
Qed.

(** C9.  In an iteration that is not the last one, the mapping [iterate]
    returns (and it returns whenever [log_interval] is not zero) has exactly
    one key, [elapsedTime]: no [totalCorrect], no [testerror] and no entry
    under a noise level. *)
Theorem iterate_not_last_keys (p : Params) (rep i : Z) (s : Suite) :
  i <> iterations p - 1 ->
  (log_interval p <> 0 ->
   exists ret : pydict, result (iterate p rep i s) = Ok ret)
  /\ forall ret : pydict,
       result (iterate p rep i s) = Ok ret ->
       dict_keys ret = [KStr "elapsedTime"]
       /\ has_key (KStr "totalCorrect") ret = false
       /\ has_key (KStr "testerror") ret = false
       /\ forall noise : float, has_key (KFloat noise) ret = false.
Proof.
  intros Hi. split.
  - intros Hli. apply iterate_returns; [exact Hli|contradiction].
  - intros ret Hret.
    destruct (iterate_shape p rep i s ret Hret) as [[_ ->]|[E _]];
      [|contradiction].
    repeat split; reflexivity.
Qed.

End IterateFacts.

(** ** Histograms of an epoch *)

Lemma every_abs (li i : Z) : every (Z.abs li) i = every li i.
Proof.
  unfold every. destruct (Z.eq_dec li 0) as [->|Hli]; [reflexivity|].
  destruct (Z.eqb_spec (i mod li) 0) as [E|NE].
  - apply Z.eqb_eq. apply Z.mod_divide in E; [|exact Hli].
    apply Z.mod_divide; [lia|]. exact (proj2 (Z.divide_abs_l li i) E).
  - apply Z.eqb_neq. intros E. apply NE.
    apply Z.mod_divide in E; [|lia].
    apply Z.mod_divide; [exact Hli|]. exact (proj1 (Z.divide_abs_l li i) E).
Qed.

Lemma multiples_abs (li : Z) (n : nat) :
  forall i : Z, multiples (Z.abs li) i n = multiples li i n.
Proof.
  induction n as [|n IH]; intros i; [reflexivity|].
  cbn [multiples]. rewrite IH.
  change (i mod Z.abs li =? 0) with (every (Z.abs li) i).
  now rewrite every_abs.
Qed.

(** One more batch number: the ceiling grows at the multiples only. *)
Lemma ceil_div_succ (li i : Z) :
  0 < li -> 0 <= i ->
  (i + 1 + li - 1) / li
  = (i + li - 1) / li + (if i mod li =? 0 then 1 else 0).
Proof.
  intros Hli Hi.
  pose proof (Z.div_mod i li ltac:(lia)) as Hdm.
  pose proof (Z.mod_pos_bound i li Hli) as Hb.
  destruct (Z.eqb_spec (i mod li) 0) as [E|NE].
  - replace (i + 1 + li - 1) with (1 * li + i) by lia.
    replace (i + li - 1) with ((i / li) * li + (li - 1)) by lia.
    rewrite Z.div_add_l by lia. rewrite Z.div_add_l by lia.
    rewrite (Z.div_small (li - 1) li) by lia.
    replace i with (li * (i / li)) at 1 by lia.
    rewrite Z.mul_comm, Z.div_mul by lia. lia.
  - replace (i + 1 + li - 1) with ((i / li + 1) * li + (i mod li)) by lia.
    replace (i + li - 1) with ((i / li + 1) * li + (i mod li - 1)) by lia.
    rewrite !Z.div_add_l by lia.
    rewrite (Z.div_small (i mod li) li), (Z.div_small (i mod li - 1) li)
      by lia.
    lia.
Qed.

Lemma multiples_closed (li : Z) (n : nat) :
  0 < li ->
  forall i : Z,
    0 <= i ->
    Z.of_nat (multiples li i n)
    = (i + Z.of_nat n + li - 1) / li - (i + li - 1) / li.
Proof.
  intros Hli. induction n as [|n IH]; intros i Hi.
  - cbn. rewrite Z.add_0_r. lia.
  - cbn [multiples]. rewrite Nat2Z.inj_add, IH by lia.
    rewrite (ceil_div_succ li i Hli Hi).
    replace (i + 1 + Z.of_nat n + li - 1) with (i + Z.of_nat (S n) + li - 1)
      by lia.
    destruct (i mod li =? 0); lia.
Qed.

Lemma loop_events_savefig_count (li : Z) (i : Z) (n : nat)
    (evs : list event) :
  loop_events (every li) i n evs ->
  count is_savefig evs = multiples li i n.
Proof.
  induction 1 as [i|i n fig evs Hfig _ IH]; [reflexivity|].
  rewrite count_app, count_batch_events, IH. cbn [multiples].
  unfold every in Hfig.
  destruct fig, (i mod li =? 0); try discriminate; reflexivity.
Qed.

Section EpochFacts.
Context {T : Torch}.

(** X1.  With a nonzero [log_interval] an epoch over [n] batches writes
    [ceil (n / |log_interval|)] histograms: one for each batch number that
    is a multiple of the interval, batch number 0 included. *)
Theorem train_savefig_count (p : Params) (e : Z) (s : Suite) :
  log_interval p <> 0 ->
  Z.of_nat (count is_savefig (events (train p e s)))
  = (Z.of_nat (List.length (epoch_batches s)) + Z.abs (log_interval p) - 1)
    / Z.abs (log_interval p).
Proof.
  intros Hli.
  destruct (train_events_ok p e s Hli) as (evs & He & _ & ->).
  change (E_model_train :: evs ++ [E_postEpoch])
    with ([E_model_train] ++ evs ++ [E_postEpoch]).
  rewrite !count_app, (loop_events_savefig_count _ _ _ _ He).
  cbn [count filter is_savefig List.length].
  rewrite Nat.add_0_l, Nat.add_0_r, <- multiples_abs.
  rewrite multiples_closed by lia.
  rewrite Z.add_0_l, (Z.div_small (Z.abs (log_interval p) - 1)) by lia.
  lia.
Qed.

(** The loop of [train] changes neither the configuration, the clock nor
    the mode of the module. *)
Lemma train_batches_fixed (p : Params) (e : Z) :
  forall (bs : list (Tensor * list Z)) (i : Z) (s : Suite),
    fixed (final (train_batches p e i bs s)) = fixed s
    /\ training (final (train_batches p e i bs s)) = training s.
Proof.
  induction bs as [|[d t] bs IH]; intros i s; [split; reflexivity|].
  rewrite train_batches_cons. cbn zeta.
  destruct (py_mod i (log_interval p)) as [r|ex]; [|split; reflexivity].
  cbn [final]. destruct (IH (i + 1) (final (train_step d t s))) as [-> ->].
  split; reflexivity.
Qed.

(** An epoch changes neither the configuration nor the clock and leaves the
    module in training mode, whether it runs to its end or raises. *)
Lemma train_fixed (p : Params) (e : Z) (s : Suite) :
  fixed (final (train p e s)) = fixed s
  /\ training (final (train p e s)) = true.
Proof.
  rewrite train_unfold. cbn zeta.
  destruct (train_batches_fixed p e (epoch_batches s) 0 (epoch_start s))
    as [Hf Ht].
  destruct (result (train_batches p e 0 (epoch_batches s) (epoch_start s)));
    cbn [final]; split; try exact Hf; exact Ht.
Qed.

(** An epoch returns exactly when [log_interval] is not zero or the loader
    yields no batch; the only exception it raises is [ZeroDivisionError]. *)
Lemma train_returns_iff (p : Params) (e : Z) (s : Suite) :
  (result (train p e s) = Ok tt
   <-> log_interval p <> 0 \/ epoch_batches s = [])
  /\ forall ex : exn,
       result (train p e s) = Raise ex -> ex = ZeroDivisionError.
Proof.
  destruct (Z.eq_dec (log_interval p) 0) as [Hli|Hli].
  - rewrite train_unfold. cbn zeta.
    destruct (epoch_batches s) as [|[d t] bs].
    + cbn. split; [split; auto|discriminate].
    + rewrite train_batches_zero by exact Hli. cbn [result]. split.
      * split; [discriminate|]. intros [H|H]; [contradiction|discriminate].
      * intros ex H. now injection H as <-.
  - destruct (train_events_ok p e s Hli) as (evs & _ & Hr & _).
    rewrite Hr. split; [split; auto|discriminate].
Qed.

Lemma figure_of_batch_events (dir : string) (e k : Z) (b : bool) :
  Forall (figure_of dir e)
    (batch_events
       (if b
        then Some (dir ++ "/figure_" ++ str e ++ "_" ++ str k)%string
        else None)).
Proof.
  destruct b; repeat constructor. exists k. reflexivity.
Qed.

Lemma train_batches_figures (p : Params) (e : Z) :
  forall (bs : list (Tensor * list Z)) (i : Z) (s : Suite),
    Forall (figure_of (resultsDir s) e) (events (train_batches p e i bs s)).
Proof.
  induction bs as [|[d t] bs IH]; intros i s; [constructor|].
  rewrite train_batches_cons. cbn zeta.
  destruct (py_mod i (log_interval p)) as [r|ex].
  - cbn [events]. apply Forall_app. split.
    + apply (figure_of_batch_events (resultsDir s) e
               (learningIterations (model (final (train_step d t s))))
               (r =? 0)).
    + apply (IH (i + 1) (final (train_step d t s))).
  - cbn [events]. apply (figure_of_batch_events (resultsDir s) e 0 false).
Qed.

(** X2.  Every histogram an epoch writes, whether the epoch runs to its end
    or raises, is written in the results directory of the experiment under a
    name [figure_<epoch>_<k>] carrying the number of the epoch. *)
Theorem train_savefig_paths (p : Params) (e : Z) (s : Suite) :
  Forall (figure_of (resultsDir s) e) (events (train p e s)).
Proof.
  rewrite train_unfold. cbn zeta.
  pose proof (train_batches_figures p e (epoch_batches s) 0 (epoch_start s))
    as H.
  destruct (result (train_batches p e 0 (epoch_batches s) (epoch_start s)));
    cbn [events]; constructor; try exact I; [|exact H].
  apply Forall_app. split; [exact H|]. repeat constructor.
Qed.

End EpochFacts.

Section EvaluationFacts.
Context {T : Torch}.

Lemma samples_length (bs : list (Tensor * list Z)) :
  forall net : Net,
    (List.length (samples (eval_outputs net bs))
     <= List.length (List.concat (map snd bs)))%nat.
Proof.
  induction bs as [|[d t] bs IH]; intros net; [apply Nat.le_refl|].
  cbn [eval_outputs map snd List.concat]. unfold samples in *.
  cbn [map fst snd List.concat]. rewrite !length_app, length_combine.
  specialize (IH (snd (forward false false net d))). lia.
Qed.

(** X3.  The [num_correct] of a mapping [test] returns is an integer between
    0 and the number of labels the loader has yielded. *)
Theorem test_num_correct_bounds (p : Params) (loader : DataLoader)
    (s : Suite) (r : pydict) :
  result (test p loader s) = Ok r ->
  exists c : Z,
    dict_get (KStr "num_correct") r = Some (PyInt c)
    /\ 0 <= c <= labels_yielded (test_batches_of loader s).
Proof.
  rewrite test_run. cbn [result].
  destruct (dataset_len loader =? 0); [discriminate|].
  intros H. injection H as <-.
  eexists. split; [reflexivity|]. unfold spec_num_correct, labels_yielded.
  pose proof (filter_length_le top1_correct
                (samples (eval_outputs (model s)
                            (test_batches_of loader s)))) as H1.
  pose proof (samples_length (test_batches_of loader s) (model s)) as H2.
  lia.
Qed.

(** X4.  [test] raises exactly when the dataset of the loader is empty, and
    then it raises [ZeroDivisionError]; by then it has put the module in
    evaluation mode and run the network once on every batch the loader
    yields. *)
Theorem test_raises_iff (p : Params) (loader : DataLoader) (s : Suite) :
  (forall ex : exn,
      result (test p loader s) = Raise ex
      <-> ex = ZeroDivisionError /\ dataset_len loader = 0)
  /\ (dataset_len loader = 0 ->
      events (test p loader s)
      = E_model_eval
          :: repeat E_forward (List.length (test_batches_of loader s))
      /\ training (final (test p loader s)) = false
      /\ model (final (test p loader s))
         = eval_net (model s) (test_batches_of loader s)).
Proof.
  rewrite test_run. cbn [result final events]. split.
  - intros ex. destruct (Z.eqb_spec (dataset_len loader) 0) as [E|NE].
    + split; [intros H; injection H as <-; now split|].
      now intros [-> _].
    + split; [discriminate|]. intros [_ E]. contradiction.
  - intros _. repeat split; reflexivity.
Qed.

(** X5.  Whether it returns or raises, [test] calls [model.eval()] and then
    the network once per batch and nothing else; it leaves the module in
    evaluation mode and changes neither the optimizer, the configuration
    nor the clock. *)
Theorem test_effects (p : Params) (loader : DataLoader) (s : Suite) :
  events (test p loader s)
  = E_model_eval :: repeat E_forward (List.length (test_batches_of loader s))
  /\ no_training_call (events (test p loader s)) = true
  /\ training (final (test p loader s)) = false
  /\ optimizer (final (test p loader s)) = optimizer s
  /\ fixed (final (test p loader s)) = fixed s.
Proof.
  rewrite test_run. cbn [final events].
  split; [reflexivity|]. split; [|repeat split; reflexivity].
  apply (no_training_call_forward
           (List.length (test_batches_of loader s))).
Qed.

End EvaluationFacts.

Section SweepEdges.
Context {T : Torch}.

(** X6.  A noise sweep returns exactly when none of the eleven datasets is
    empty: an empty dataset at any of the levels keeps it from returning. *)
Theorem runNoiseTests_returns_iff (p : Params) (s : Suite) :
  (exists ret : pydict, result (runNoiseTests p s) = Ok ret)
  <-> datasets_nonempty p s noise_levels.
Proof.
  split.
  - intros [ret H]. exact (runNoiseTests_ok_nonempty p s ret H).
  - intros H. destruct (runNoiseTests_run p s H) as (r0 & e & _ & _ & ->).
    eexists. reflexivity.
Qed.

Lemma filter_DataLoader_noise (p : Params) (s : Suite) (noise : float) :
  filter is_DataLoader (noise_events p s noise) = [E_DataLoader noise].
Proof.
  unfold noise_events. cbn [filter is_DataLoader]. f_equal.
  induction (List.length (test_batches_of (noise_loader p s noise) s))
    as [|n IH]; [reflexivity|exact IH].
Qed.

(** The loaders of a sweep depend on the configuration only. *)
Lemma noise_loader_config (p : Params) (s s' : Suite) (noise : float) :
  config s' = config s -> noise_loader p s' noise = noise_loader p s noise.
Proof.
  unfold config, noise_loader. intros H. injection H as _ Hd _ Hc _ _.
  now rewrite Hd, Hc.
Qed.

Lemma levels_tried_config (p : Params) (s s' : Suite) (ns : list float) :
  config s' = config s -> levels_tried p s' ns = levels_tried p s ns.
Proof.
  intros H. induction ns as [|noise ns IH]; [reflexivity|].
  cbn [levels_tried]. now rewrite IH, (noise_loader_config p s s' noise H).
Qed.

Lemma datasets_nonempty_config (p : Params) (s s' : Suite)
    (ns : list float) :
  config s' = config s ->
  datasets_nonempty p s' ns <-> datasets_nonempty p s ns.
Proof.
  intros H. unfold datasets_nonempty.
  split; intros Hne noise Hin; specialize (Hne noise Hin).
  - now rewrite (noise_loader_config p s s' noise H) in Hne.
  - now rewrite (noise_loader_config p s s' noise H).
Qed.

Lemma noise_tests_levels (p : Params) :
  forall (ns : list float) (ret : pydict) (tc : Z) (s : Suite),
    filter is_DataLoader (events (noise_tests p ns ret (PyInt tc) s))
    = map E_DataLoader (levels_tried p s ns)
    /\ fixed (final (noise_tests p ns ret (PyInt tc) s)) = fixed s.
Proof.
  induction ns as [|noise ns IH]; intros ret tc s; [split; reflexivity|].
  rewrite noise_tests_cons. cbn [levels_tried].
  destruct (dataset_len (noise_loader p s noise) =? 0).
  - cbn [events final map]. rewrite filter_DataLoader_noise.
    split; reflexivity.
  - cbn zeta. cbn [events final map].
    rewrite filter_app, filter_DataLoader_noise.
    destruct (IH (dict_set (KFloat noise) (PyDict (noise_result p s noise))
                    ret)
                (tc + num_correct_of (noise_result p s noise))
                (noise_final p s noise)) as [-> ->].
    rewrite (levels_tried_config p s (noise_final p s noise) ns eq_refl).
    split; reflexivity.
Qed.

(** X7.  A noise sweep builds its loaders in the order of the noise levels
    and stops after the first one whose dataset is empty: the levels past
    it are never evaluated.  Whether it returns or raises, it changes
    neither the configuration nor the clock. *)
Theorem runNoiseTests_levels_tried (p : Params) (s : Suite) :
  filter is_DataLoader (events (runNoiseTests p s))
  = map E_DataLoader (levels_tried p s noise_levels)
  /\ fixed (final (runNoiseTests p s)) = fixed s.
Proof.
  destruct (runNoiseTests_final_events p s) as [-> ->].
  apply noise_tests_levels.
Qed.

End SweepEdges.

Lemma Ok_inj {A : Type} (a b : A) : Ok a = Ok b -> a = b.
Proof. intros H. now injection H. Qed.

Section IterationEdges.
Context {T : Torch}.

Lemma fixed_inv (s s' : Suite) :
  fixed s' = fixed s ->
  config s' = config s /\ clock s' = clock s
  /\ startTime s' = startTime s.
Proof.
  intros H. pose proof (f_equal fst H) as Hc. pose proof (f_equal snd H) as Hk.
  cbn [fixed fst snd] in Hc, Hk. split; [exact Hc|]. split; [exact Hk|].
  exact (f_equal (fun c => fst (fst (fst (fst (fst c))))) Hc).
Qed.

Lemma tick_spec (s : Suite) :
  clock (tick s) = S (clock s) /\ config (tick s) = config s
  /\ training (tick s) = training s.
Proof. repeat split; reflexivity. Qed.

Lemma runNoiseTests_fixed (p : Params) (s : Suite) :
  fixed (final (runNoiseTests p s)) = fixed s.
Proof.
  destruct (runNoiseTests_final_events p s) as [-> _].
  apply noise_tests_levels.
Qed.

Lemma sweep_results_keys (p : Params) :
  forall (ns : list float) (s : Suite),
    Forall (fun r => dict_keys r
                     = [KStr "num_correct"; KStr "test_loss";
                        KStr "testerror"])
      (sweep_results p ns s).
Proof.
  induction ns as [|n ns IH]; intros s; constructor; [reflexivity|apply IH].
Qed.

(** The end of [iterate] reads the clock once. *)
Lemma iterate_finish_final (ret : pydict) (s : Suite) :
  final (iterate_finish ret s) = tick s.
Proof.
  unfold iterate_finish.
  rewrite (bind_final_ok time_now _ s (time_time (clock s)) eq_refl).
  rewrite bind_get. cbn [dict_update fold_left fst snd].
  change (final (time_now s)) with (tick s).
  rewrite bind_unfold. unfold getitem.
  rewrite dict_get_set_same by reflexivity.
  cbn [pure result final events].
  rewrite (bind_final_ok print _ (tick s) tt eq_refl). reflexivity.
Qed.

(** The three ways an iteration can go. *)
Lemma iterate_cases (p : Params) (rep i : Z) (s : Suite) :
  (exists ex : exn,
      result (train p i s) = Raise ex
      /\ iterate p rep i s
         = {| result := Raise ex; final := final (train p i s);
              events := events (train p i s) |})
  \/ (result (train p i s) = Ok tt
      /\ i <> iterations p - 1
      /\ result (iterate p rep i s)
         = Ok [(KStr "elapsedTime", elapsed (final (train p i s)))]
      /\ final (iterate p rep i s) = tick (final (train p i s)))
  \/ (result (train p i s) = Ok tt
      /\ i = iterations p - 1
      /\ ((exists ex : exn,
              result (runNoiseTests p (final (train p i s))) = Raise ex
              /\ result (iterate p rep i s) = Raise ex)
          \/ (exists e : pyval,
                datasets_nonempty p (final (train p i s)) noise_levels
                /\ result (iterate p rep i s)
                   = Ok (sweep_dict
                           (sweep_results p noise_levels
                              (final (train p i s)))
                           (PyInt (sum_Z (map num_correct_of
                                            (sweep_results p noise_levels
                                               (final (train p i s))))))
                           e
                         ++ [(KStr "elapsedTime",
                              elapsed (final (runNoiseTests p
                                                (final (train p i s)))))])
                /\ final (iterate p rep i s)
                   = tick (final (runNoiseTests p (final (train p i s))))))).
Proof.
  destruct (result (train p i s)) as [[]|ex] eqn:Htrain.
  - right. destruct (Z.eq_dec i (iterations p - 1)) as [Hi|Hi].
    + right. split; [reflexivity|]. split; [exact Hi|].
      destruct (result (runNoiseTests p (final (train p i s))))
        as [r|ex] eqn:Hsweep.
      * right.
        pose proof (runNoiseTests_ok_nonempty p _ r Hsweep) as Hne.
        destruct (runNoiseTests_run p _ Hne) as (r0 & e & _ & _ & Hrun).
        exists e. split; [exact Hne|].
        assert (Hlen := sweep_results_length p noise_levels
                          (final (train p i s))).
        assert (Hok : result (runNoiseTests p (final (train p i s)))
                      = Ok (sweep_dict
                              (sweep_results p noise_levels
                                 (final (train p i s)))
                              (PyInt (sum_Z (map num_correct_of
                                   (sweep_results p noise_levels
                                      (final (train p i s)))))) e))
          by (rewrite Hrun; reflexivity).
        split.
        -- exact (iterate_run_last p rep i s _ _ e Hi Htrain Hlen Hok).
        -- rewrite iterate_unfold.
           rewrite (bind_final_ok _ _ _ _ Htrain).
           destruct (Z.eqb_spec i (iterations p - 1)) as [_|NE];
             [|contradiction].
           destruct (iterate_sweep_result p _ _ _ e Hlen Hok) as [Hr Hf].
           rewrite (bind_final_ok _ _ _ _ Hr), iterate_finish_final, Hf.
           reflexivity.
      * left. exists ex. split; [reflexivity|].
        exact (iterate_raise_sweep p rep i s ex Hi Htrain Hsweep).
    + left. split; [reflexivity|]. split; [exact Hi|].
      split; [exact (iterate_run_not_last p rep i s Hi Htrain)|].
      rewrite iterate_unfold. rewrite (bind_final_ok _ _ _ _ Htrain).
      destruct (Z.eqb_spec i (iterations p - 1)) as [E|_]; [contradiction|].
      rewrite bind_pure. apply iterate_finish_final.
  - left. exists ex. split; [reflexivity|].
    rewrite iterate_unfold, bind_unfold, Htrain. reflexivity.
Qed.

(** X8.  [iterate] returns exactly when the epoch can run ([log_interval]
    is not zero or the training loader yields no batch) and, in the last
    iteration, none of the datasets of the sweep is empty. *)
Theorem iterate_returns_iff (p : Params) (rep i : Z) (s : Suite) :
  (exists ret : pydict, result (iterate p rep i s) = Ok ret)
  <-> (log_interval p <> 0 \/ epoch_batches s = [])
      /\ (i = iterations p - 1 -> datasets_nonempty p s noise_levels).
Proof.
  destruct (train_returns_iff p i s) as [Htr _].
  destruct (train_fixed p i s) as [Hfix _].
  destruct (fixed_inv _ _ Hfix) as (Hcfg & _ & _).
  pose proof (datasets_nonempty_config p s (final (train p i s))
                noise_levels Hcfg) as Hne.
  destruct (iterate_cases p rep i s)
    as [(ex & Htrain & Hit)
       |[(Htrain & Hi & Hres & _)
        |(Htrain & Hi & [(ex & Hsw & Hres)|(e & Hd & Hres & _)])]].
  - rewrite Hit. cbn [result].
    split; [intros [ret H]; discriminate H|].
    intros [H _]. apply Htr in H. rewrite H in Htrain.
    discriminate Htrain.
  - rewrite Hres.
    split; [|intros _; eexists; reflexivity].
    intros _. split; [now apply Htr|contradiction].
  - rewrite Hres.
    split; [intros [ret H]; discriminate H|].
    intros [_ H]. apply H, Hne in Hi.
    destruct (runNoiseTests_run p _ Hi) as (r0 & e & _ & _ & Hrun).
    rewrite Hrun in Hsw. discriminate Hsw.
  - rewrite Hres.
    split; [|intros _; eexists; reflexivity].
    intros _. split; [now apply Htr|]. intros _. now apply Hne.
Qed.

(** The state and the [elapsedTime] of an iteration that returns. *)
Lemma iterate_ok_state (p : Params) (rep i : Z) (s : Suite) (ret : pydict) :
  result (iterate p rep i s) = Ok ret ->
  exists s' : Suite,
    final (iterate p rep i s) = tick s'
    /\ fixed s' = fixed s
    /\ dict_get (KStr "elapsedTime") ret = Some (elapsed s')
    /\ (s' = final (train p i s)
        \/ s' = final (runNoiseTests p (final (train p i s)))).
Proof.
  intros Hret.
  destruct (train_fixed p i s) as [Hfix _].
  pose proof (runNoiseTests_fixed p (final (train p i s))) as Hfix'.
  rewrite Hfix in Hfix'.
  destruct (iterate_cases p rep i s)
    as [(ex & _ & Hit)
       |[(_ & _ & Hres & Hfin)
        |(_ & _ & [(ex & _ & Hres)|(e & _ & Hres & Hfin)])]];
    try (rewrite Hit in Hret; discriminate Hret);
    rewrite Hres in Hret; try discriminate Hret;
    apply Ok_inj in Hret; subst ret.
  - exists (final (train p i s)). split; [exact Hfin|]. split; [exact Hfix|].
    split; [|now left]. cbn [dict_get key_eqb String.eqb]. reflexivity.
  - exists (final (runNoiseTests p (final (train p i s)))).
    split; [exact Hfin|]. split; [exact Hfix'|]. split; [|now right].
    destruct (sweep_dict_update
                (sweep_results p noise_levels (final (train p i s)))
                (PyInt (sum_Z (map num_correct_of
                     (sweep_results p noise_levels (final (train p i s))))))
                e
                (elapsed (final (runNoiseTests p (final (train p i s)))))
                (sweep_results_length p noise_levels _))
      as (_ & _ & Hget).
    exact Hget.
Qed.

(** X9.  In every mapping [iterate] returns, [elapsedTime] is the reading
    of the clock made at the end of the iteration minus [self.startTime];
    the iteration reads the clock exactly once and leaves the configuration
    ([startTime], the directories, the loaders) as it was. *)
Theorem iterate_elapsed (p : Params) (rep i : Z) (s : Suite)
    (ret : pydict) :
  result (iterate p rep i s) = Ok ret ->
  dict_get (KStr "elapsedTime") ret
  = Some (PyFloat (time_time (clock s) - startTime s)%float)
  /\ clock (final (iterate p rep i s)) = S (clock s)
  /\ config (final (iterate p rep i s)) = config s.
Proof.
  intros Hret.
  destruct (iterate_ok_state p rep i s ret Hret)
    as (s' & -> & Hfix & -> & _).
  destruct (fixed_inv _ _ Hfix) as (Hcfg & Hck & Hst).
  destruct (tick_spec s') as (-> & -> & _).
  unfold elapsed. rewrite Hst, Hck.
  split; [reflexivity|]. split; [reflexivity|exact Hcfg].
Qed.

(** X10.  An iteration that returns leaves the module in evaluation mode if
    it is the last one (the sweep has switched it) and in training mode
    otherwise. *)
Theorem iterate_mode (p : Params) (rep i : Z) (s : Suite) (ret : pydict) :
  result (iterate p rep i s) = Ok ret ->
  training (final (iterate p rep i s)) = negb (i =? iterations p - 1).
Proof.
  intros Hret.
  destruct (iterate_cases p rep i s)
    as [(ex & _ & Hit)
       |[(_ & Hi & _ & Hfin)
        |(_ & Hi & [(ex & _ & Hres)|(e & _ & _ & Hfin)])]].
  - rewrite Hit in Hret. discriminate Hret.
  - rewrite Hfin. apply Z.eqb_neq in Hi. rewrite Hi.
    match goal with
    | |- context [tick ?x] => destruct (tick_spec x) as (_ & _ & ->)
    end.
    destruct (train_fixed p i s) as [_ Ht]. exact Ht.
  - rewrite Hres in Hret. discriminate Hret.
  - rewrite Hfin. rewrite Hi at 2. rewrite Z.eqb_refl.
    destruct (runNoiseTests_final_events p (final (train p i s))) as [Hf _].
    match goal with
    | |- context [tick ?x] => destruct (tick_spec x) as (_ & _ & ->)
    end.
    rewrite Hf.
    unfold noise_levels. rewrite noise_tests_cons.
    destruct (dataset_len (noise_loader p (final (train p i s)) 0) =? 0);
      [reflexivity|].
    cbn zeta. cbn [final]. apply noise_tests_keeps_eval. reflexivity.
Qed.

(** X11.  With [log_interval = 0] and a training loader that yields a batch,
    [iterate] raises [ZeroDivisionError] out of the first round of the
    epoch: it makes one optimizer step and nothing after it, so no sweep
    even in the last iteration, no reading of the clock and no result. *)
Theorem iterate_zero_interval (p : Params) (rep i : Z) (s : Suite) :
  log_interval p = 0 ->
  epoch_batches s <> [] ->
  result (iterate p rep i s) = Raise ZeroDivisionError
  /\ events (iterate p rep i s) = E_model_train :: batch_events None
  /\ clock (final (iterate p rep i s)) = clock s.
Proof.
  intros Hli Hbs.
  assert (Htrain : result (train p i s) = Raise ZeroDivisionError
                   /\ events (train p i s)
                      = E_model_train :: batch_events None).
  { rewrite train_unfold. cbn zeta.
    destruct (epoch_batches s) as [|[d t] bs]; [contradiction|].
    rewrite train_batches_zero by exact Hli. split; reflexivity. }
  destruct Htrain as [Hr He].
  rewrite iterate_unfold, bind_unfold, Hr. cbn [result final events].
  split; [reflexivity|]. split; [exact He|].
  destruct (train_fixed p i s) as [Hfix _].
  exact (proj1 (proj2 (fixed_inv _ _ Hfix))).
Qed.

(** X12.  The mapping of the last iteration has exactly fourteen keys: the
    eleven noise levels, [totalCorrect], [testerror] and [elapsedTime]
    (listed here as they were inserted); and under each noise level a
    mapping with exactly the keys [num_correct], [test_loss] and
    [testerror]. *)
Theorem iterate_last_keys (p : Params) (rep i : Z) (s : Suite)
    (ret : pydict) :
  i = iterations p - 1 ->
  result (iterate p rep i s) = Ok ret ->
  dict_keys ret
  = map KFloat noise_levels
      ++ [KStr "totalCorrect"; KStr "testerror"; KStr "elapsedTime"]
  /\ Forall (fun noise =>
               exists r : pydict,
                 dict_get (KFloat noise) ret = Some (PyDict r)
                 /\ dict_keys r = [KStr "num_correct"; KStr "test_loss";
                                   KStr "testerror"])
       noise_levels.
Proof.
  intros Hi Hret.
  destruct (iterate_cases p rep i s)
    as [(ex & _ & Hit)
       |[(_ & NE & _)
        |(_ & _ & [(ex & _ & Hres)|(e & _ & Hres & _)])]];
    [rewrite Hit in Hret; discriminate Hret|contradiction
    |rewrite Hres in Hret; discriminate Hret|].
  rewrite Hres in Hret. apply Ok_inj in Hret. subst ret.
  pose proof (sweep_results_length p noise_levels (final (train p i s)))
    as Hlen.
  pose proof (sweep_results_keys p noise_levels (final (train p i s)))
    as Hkeys.
  set (rs := sweep_results p noise_levels (final (train p i s))) in *.
  generalize (PyInt (sum_Z (map num_correct_of rs))) as tc.
  generalize (elapsed (final (runNoiseTests p (final (train p i s))))) as v.
  intros v tc. clearbody rs.
  do 12 (destruct rs as [|? rs]; try discriminate Hlen).
  split; [reflexivity|].
  repeat match goal with
         | H : Forall _ (_ :: _) |- _ => inversion H; clear H; subst
         end.
  repeat (constructor;
          [eexists; split; [vm_compute; reflexivity|assumption]|]).
  constructor.
Qed.

End IterationEdges.

(** ** The names of the histograms *)

Lemma append_inj_l (p a b : string) : (p ++ a = p ++ b)%string -> a = b.
Proof.
  induction p as [|c p IH]; cbn; [trivial|].
  intros H. injection H as H. auto.
Qed.

Lemma uint_no_underscore (d : Decimal.uint) :
  ~ In underscore (list_ascii_of_string (NilEmpty.string_of_uint d)).
Proof.
  induction d; cbn; intros H;
    try (destruct H as [H|H]; [discriminate H|auto]).
  exact H.
Qed.

(** [str] writes digits and a sign only. *)
Lemma str_no_underscore (z : Z) :
  ~ In underscore (list_ascii_of_string (str z)).
Proof.
  unfold str. destruct (Z.to_int z) as [d|d]; cbn.
  - destruct d; try apply uint_no_underscore.
    cbn. intros [H|[]]. discriminate H.
  - intros [H|H]; [discriminate H|]. revert H.
    destruct d; try apply uint_no_underscore.
    cbn. intros [H|[]]. discriminate H.
Qed.

Lemma split_underscore (a : string) :
  forall a' b b' : string,
    ~ In underscore (list_ascii_of_string a) ->
    ~ In underscore (list_ascii_of_string a') ->
    (a ++ String underscore b = a' ++ String underscore b')%string ->
    a = a' /\ b = b'.
Proof.
  induction a as [|c a IH]; intros [|c' a'] b b' Ha Ha' H; cbn in *.
  - injection H as H. now split.
  - injection H as Hc H. exfalso. apply Ha'. now left.
  - injection H as Hc H. exfalso. apply Ha. now left.
  - injection H as Hc H. destruct (IH a' b b') as [E1 E2]; auto.
    subst. now split.
Qed.

(** [str] is one to one. *)
Lemma str_inj (a b : Z) : str a = str b -> a = b.
Proof.
  unfold str. intros H. apply DecimalZ.to_int_inj.
  assert (Ha : forall z,
             NilZero.int_of_string (NilZero.string_of_int (Z.to_int z))
             = Some (Z.to_int z)).
  { intros z. apply NilZero.isi; destruct z; cbn; try discriminate;
      intros E; injection E as E;
      now apply DecimalPos.Unsigned.to_uint_nonnil in E. }
  pose proof (Ha a) as H1. rewrite H, Ha in H1. now injection H1.
Qed.

Section FigureNames.
Context {T : Torch}.

(** X13.  The name of a histogram tells its epoch and the iteration count of
    the network: two histograms written in the same results directory under
    the same name come from the same epoch and the same
    [learningIterations], so histograms of different epochs or iteration
    counts never overwrite one another. *)
Theorem figure_path_inj (e e' : Z) (s s' : Suite) :
  resultsDir s' = resultsDir s ->
  figure_path e s = figure_path e' s' ->
  e = e'
  /\ learningIterations (model s) = learningIterations (model s').
Proof.
  unfold figure_path. intros -> H.
  apply append_inj_l in H. apply (append_inj_l "/figure_") in H.
  change ("_" ++ str (learningIterations (model s)))%string
    with (String underscore (str (learningIterations (model s)))) in H.
  change ("_" ++ str (learningIterations (model s')))%string
    with (String underscore (str (learningIterations (model s')))) in H.
  apply split_underscore in H; try apply str_no_underscore.
  destruct H as [He Hk]. split; now apply str_inj.
Qed.

Lemma loop_events_rounds (writes : Z -> bool) (i : Z) (n : nat)
    (evs : list event) :
  loop_events writes i n evs ->
  exists figs : list (option string),
    evs = List.concat (map batch_events figs)
    /\ map is_some figs = map writes (batch_numbers i n).
Proof.
  induction 1 as [i|i n fig evs Hfig _ (figs & -> & Hw)].
  - exists []. split; reflexivity.
  - exists (fig :: figs). split; [reflexivity|].
    cbn [map batch_numbers]. now rewrite Hfig, Hw.
Qed.

Lemma batch_numbers_length (n : nat) :
  forall i : Z, List.length (batch_numbers i n) = n.
Proof. induction n as [|n IH]; intros i; cbn; now rewrite ?IH. Qed.

(** X14.  An epoch with a nonzero [log_interval] is [model.train()], then
    for each batch, in the order of the loader, the five calls [zero_grad],
    forward, [backward], optimizer step, [rezeroWeights], followed by the
    writing of a histogram exactly in the rounds whose batch number is a
    multiple of [log_interval], then [postEpoch]. *)
Theorem train_rounds (p : Params) (e : Z) (s : Suite) :
  log_interval p <> 0 ->
  exists figs : list (option string),
    events (train p e s)
    = E_model_train :: List.concat (map batch_events figs) ++ [E_postEpoch]
    /\ List.length figs = List.length (epoch_batches s)
    /\ map is_some figs
       = map (fun i => i mod log_interval p =? 0)
           (batch_numbers 0 (List.length (epoch_batches s))).
Proof.
  intros Hli.
  destruct (train_events_ok p e s Hli) as (evs & He & _ & ->).
  destruct (loop_events_rounds _ _ _ _ He) as (figs & -> & Hw).
  exists figs. split; [reflexivity|]. split; [|exact Hw].
  rewrite <- (length_map is_some), Hw, length_map.
  apply batch_numbers_length.
Qed.

End FigureNames.

(** ** The loader [self.test_loader] *)

Section TestLoaderUnused.
Context {T : Torch}.
Variable l : DataLoader.

Lemma train_batches_moved (p : Params) (e : Z) :
  forall (bs : list (Tensor * list Z)) (i : Z) (s : Suite),
    train_batches p e i bs (set_test_loader l s)
    = moved (set_test_loader l) (train_batches p e i bs s).
Proof.
  induction bs as [|[d t] bs IH]; intros i s; [reflexivity|].
  rewrite !train_batches_cons. cbn zeta.
  destruct (py_mod i (log_interval p)) as [r|ex]; [|reflexivity].
  change (final (train_step d t (set_test_loader l s)))
    with (set_test_loader l (final (train_step d t s))).
  rewrite IH. reflexivity.
Qed.

Lemma train_moved (p : Params) (e : Z) (s : Suite) :
  train p e (set_test_loader l s) = moved (set_test_loader l) (train p e s).
Proof.
  rewrite !train_unfold. cbn zeta.
  change (epoch_batches (set_test_loader l s)) with (epoch_batches s).
  change (epoch_start (set_test_loader l s))
    with (set_test_loader l (epoch_start s)).
  rewrite train_batches_moved. cbn [moved result final events].
  destruct (result (train_batches p e 0 (epoch_batches s) (epoch_start s)));
    reflexivity.
Qed.

Lemma noise_tests_moved (p : Params) :
  forall (ns : list float) (ret : pydict) (tc : Z) (s : Suite),
    noise_tests p ns ret (PyInt tc) (set_test_loader l s)
    = moved (set_test_loader l) (noise_tests p ns ret (PyInt tc) s).
Proof.
  induction ns as [|noise ns IH]; intros ret tc s; [reflexivity|].
  rewrite !noise_tests_cons.
  change (noise_loader p (set_test_loader l s) noise)
    with (noise_loader p s noise).
  destruct (dataset_len (noise_loader p s noise) =? 0); [reflexivity|].
  cbn zeta.
  change (noise_result p (set_test_loader l s) noise)
    with (noise_result p s noise).
  change (noise_final p (set_test_loader l s) noise)
    with (set_test_loader l (noise_final p s noise)).
  change (noise_events p (set_test_loader l s) noise)
    with (noise_events p s noise).
  rewrite IH. reflexivity.
Qed.

(** A continuation that does not look at the state goes through [moved]. *)
Lemma bind_moved {A B : Type} (m : M A) (k : A -> M B) (s : Suite) :
  m (set_test_loader l s) = moved (set_test_loader l) (m s) ->
  (forall (a : A) (s' : Suite),
      k a (set_test_loader l s') = moved (set_test_loader l) (k a s')) ->
  bind m k (set_test_loader l s) = moved (set_test_loader l) (bind m k s).
Proof.
  intros Hm Hk. rewrite !bind_unfold, Hm. cbn [moved result final events].
  destruct (result (m s)) as [a|ex]; [|reflexivity].
  rewrite Hk. reflexivity.
Qed.

Lemma getitem_moved (k : pykey) (d : pydict) (s : Suite) :
  getitem k d (set_test_loader l s)
  = moved (set_test_loader l) (getitem k d s).
Proof. unfold getitem. destruct (dict_get k d); reflexivity. Qed.

Lemma subscript_moved (v : pyval) (k : pykey) (s : Suite) :
  subscript v k (set_test_loader l s)
  = moved (set_test_loader l) (subscript v k s).
Proof. destruct v; try reflexivity. apply getitem_moved. Qed.

Lemma runNoiseTests_moved (p : Params) (s : Suite) :
  runNoiseTests p (set_test_loader l s)
  = moved (set_test_loader l) (runNoiseTests p s).
Proof.
  unfold runNoiseTests. apply bind_moved; [apply noise_tests_moved|].
  intros [ret tc] s'.
  apply bind_moved; [apply getitem_moved|]. intros r0 s''.
  apply bind_moved; [apply subscript_moved|]. intros e s3. reflexivity.
Qed.

Lemma iterate_sweep_moved (p : Params) (s : Suite) :
  iterate_sweep p (set_test_loader l s)
  = moved (set_test_loader l) (iterate_sweep p s).
Proof.
  unfold iterate_sweep. apply bind_moved; [apply runNoiseTests_moved|].
  intros r s'. cbn zeta.
  apply bind_moved; [apply getitem_moved|]. intros _ s2.
  apply bind_moved; [apply getitem_moved|]. intros _ s3.
  apply bind_moved; [reflexivity|]. intros _ s4. reflexivity.
Qed.

Lemma iterate_finish_moved (ret : pydict) (s : Suite) :
  iterate_finish ret (set_test_loader l s)
  = moved (set_test_loader l) (iterate_finish ret s).
Proof.
  unfold iterate_finish. apply bind_moved; [reflexivity|]. intros now s1.
  rewrite !bind_get. cbn zeta.
  change (startTime (set_test_loader l s1)) with (startTime s1).
  apply bind_moved; [apply getitem_moved|]. intros _ s2.
  apply bind_moved; [reflexivity|]. intros _ s3. reflexivity.
Qed.

(** X15.  No method reads the loader [self.test_loader] that [reset]
    builds: whatever loader is stored there, [iterate] returns the same
    mapping or raises the same exception, makes the same calls and leaves
    the same state, that field apart.  The evaluations of the sweep use
    loaders of their own. *)
Theorem iterate_test_loader_unused (p : Params) (rep i : Z) (s : Suite) :
  iterate p rep i (set_test_loader l s)
  = moved (set_test_loader l) (iterate p rep i s).
Proof.
  rewrite !iterate_unfold. apply bind_moved; [apply train_moved|].
  intros _ s1. apply bind_moved.
  - destruct (i =? iterations p - 1);
      [apply iterate_sweep_moved|reflexivity].
  - intros ret s2. apply iterate_finish_moved.
Qed.

End TestLoaderUnused.

(** ** The life of an experiment *)

Section LifecycleFacts.
Context {T : Torch} {H : Host T}.

(** X17.  [elapsedTime] is counted from [reset] and never restarted: in the
    first iteration run on the object [reset] has set up it is the second
    reading of the clock minus the first, and in an iteration run right
    after it the third reading minus the first. *)
Theorem reset_iterate_elapsed (sp : Setup.Params) (p : Params)
    (rep i j : Z) (ticks : nat) (fs : FS) (ret ret' : pydict) :
  let s := self (reset sp rep ticks fs) in
  result (iterate p rep i s) = Ok ret ->
  result (iterate p rep j (final (iterate p rep i s))) = Ok ret' ->
  dict_get (KStr "elapsedTime") ret
  = Some (PyFloat (time_time (S ticks) - time_time ticks)%float)
  /\ dict_get (KStr "elapsedTime") ret'
     = Some (PyFloat (time_time (S (S ticks)) - time_time ticks)%float).
Proof.
  intros s Hret Hret'.
  destruct (iterate_ok_state p rep i s ret Hret)
    as (s1 & Hf1 & Hfix1 & -> & _).
  destruct (iterate_ok_state p rep j _ ret' Hret')
    as (s2 & _ & Hfix2 & -> & _).
  rewrite Hf1 in Hfix2.
  destruct (fixed_inv _ _ Hfix1) as (_ & Hck1 & Hst1).
  destruct (fixed_inv _ _ Hfix2) as (_ & Hck2 & Hst2).
  unfold elapsed. rewrite Hst2, Hck2, Hst1, Hck1.
  destruct (tick_spec s1) as (Hck & Hcfg & _).
  assert (Hst : startTime (tick s1) = startTime s1) by reflexivity.
  rewrite Hst, Hck, Hst1, Hck1. split; reflexivity.
Qed.

End LifecycleFacts.

(** * Runs on the small instance *)

Lemma toy_datasets_nonempty (p : Params) (s : @Suite Toy.torch) :
  datasets_nonempty p s noise_levels.
Proof. intros noise _. cbn. discriminate. Qed.

(** C1 as stated fails: with [log_interval = 5] and a loader of two batches,
    the interval exceeds the number of batches and yet the epoch writes a
    histogram, the one of batch number 0. *)
Lemma train_savefig_counterexample :
  log_interval Toy.p5 > Z.of_nat (List.length (epoch_batches Toy.suite))
  /\ count is_savefig (events (train Toy.p5 0 Toy.suite)) <> 0%nat.
Proof. split; vm_compute; [reflexivity|discriminate]. Qed.

Lemma train_savefig_large_interval_witness :
  log_interval Toy.p5 > Z.of_nat (List.length (epoch_batches Toy.suite))
  /\ count is_savefig (events (train Toy.p5 0 Toy.suite)) = 1%nat.
Proof.
  assert (H : log_interval Toy.p5
              > Z.of_nat (List.length (epoch_batches Toy.suite)))
    by (vm_compute; reflexivity).
  split; [exact H|].
  exact (train_savefig_large_interval Toy.p5 0 Toy.suite H).
Defined.

Lemma runNoiseTests_totalCorrect_witness :
  datasets_nonempty Toy.p5 Toy.suite noise_levels
  /\ exists ret : pydict,
       result (runNoiseTests Toy.p5 Toy.suite) = Ok ret
       /\ exists rs : list pydict,
            dict_get (KStr "totalCorrect") ret
            = Some (PyInt (sum_Z (map num_correct_of rs))).
Proof.
  pose proof (toy_datasets_nonempty Toy.p5 Toy.suite) as H.
  split; [exact H|].
  destruct (runNoiseTests_totalCorrect Toy.p5 Toy.suite) as [Hret Hsum].
  destruct (Hret H) as [ret Hok].
  exists ret. split; [exact Hok|].
  destruct (Hsum ret Hok) as (rs & _ & _ & _ & _ & _ & Htc & _).
  exists rs. exact Htc.
Defined.

Lemma iterate_testerror_witness :
  (datasets_nonempty Toy.p5 Toy.suite noise_levels
   /\ exists (ret r0 : pydict) (e : pyval),
        result (runNoiseTests Toy.p5 Toy.suite) = Ok ret
        /\ dict_get (KFloat 0.0) ret = Some (PyDict r0)
        /\ dict_get (KStr "testerror") r0 = Some e
        /\ dict_get (KStr "testerror") ret = Some e)
  /\ (0 = iterations Toy.p5 - 1
      /\ log_interval Toy.p5 <> 0
      /\ datasets_nonempty Toy.p5 (final (train Toy.p5 0 Toy.suite))
           noise_levels)
  /\ exists (ret r0 : pydict) (e : pyval),
       result (iterate Toy.p5 0 0 Toy.suite) = Ok ret
       /\ result (test Toy.p5
                    (noise_loader Toy.p5 (final (train Toy.p5 0 Toy.suite))
                       0.0)
                    (final (train Toy.p5 0 Toy.suite))) = Ok r0
       /\ dict_get (KFloat 0.0) ret = Some (PyDict r0)
       /\ dict_get (KStr "testerror") r0 = Some e
       /\ dict_get (KStr "testerror") ret = Some e.
Proof.
  assert (Hi : 0 = iterations Toy.p5 - 1) by reflexivity.
  assert (Hli : log_interval Toy.p5 <> 0) by (vm_compute; discriminate).
  pose proof (toy_datasets_nonempty Toy.p5 Toy.suite) as H0.
  pose proof (toy_datasets_nonempty Toy.p5
                (final (train Toy.p5 0 Toy.suite))) as H.
  destruct (iterate_testerror Toy.p5 0 0 Toy.suite)
    as (Hsw & Hsweep & Hret & Hlast).
  split; [split; [exact H0|]|split; [repeat split; assumption|]].
  - destruct (Hsw H0) as [ret Hok].
    destruct (Hsweep ret Hok) as (r0 & e & _ & Hg & He & Hte).
    exists ret, r0, e. repeat split; assumption.
  - destruct (Hret Hi Hli H) as [ret Hok].
    destruct (Hlast ret Hi Hok) as (r0 & e & Ht & Hg & He & Hte).
    exists ret, r0, e. repeat split; assumption.
Defined.

Lemma iterate_keys_witness :
  log_interval Toy.p5 <> 0
  /\ exists ret : pydict,
       result (iterate Toy.p5 0 0 Toy.suite) = Ok ret
       /\ has_key (KStr "elapsedTime") ret = true
       /\ has_key (KStr "totalCorrect") ret = true.
Proof.
  assert (Hli : log_interval Toy.p5 <> 0) by (vm_compute; discriminate).
  split; [exact Hli|].
  destruct (iterate_keys Toy.p5 0 0 Toy.suite) as [Hret Hkeys].
  destruct (Hret Hli (fun _ => toy_datasets_nonempty Toy.p5 _)) as [ret Hok].
  exists ret. split; [exact Hok|].
  destruct (Hkeys ret Hok) as [Hel [_ Hlast]].
  split; [exact Hel|]. apply Hlast. reflexivity.
Defined.

Lemma test_returns_witness :
  dataset_len (Toy.test_set : @DataLoader Toy.torch) <> 0
  /\ result (test Toy.p5 (Toy.test_set : @DataLoader Toy.torch) Toy.suite)
     = Ok [(KStr "num_correct", PyInt 2);
           (KStr "test_loss", PyFloat 0);
           (KStr "testerror", PyFloat 100)].
Proof.
  assert (H : dataset_len (Toy.test_set : @DataLoader Toy.torch) <> 0)
    by (vm_compute; discriminate).
  split; [exact H|].
  exact (test_returns Toy.p5 (Toy.test_set : @DataLoader Toy.torch) Toy.suite H).
Defined.

(** C6 as stated fails: with [log_interval = 0] the epoch makes an optimizer
    step, raises at the test of the first batch and never calls
    [postEpoch]. *)
Lemma train_hooks_counterexample :
  count is_step (events (train (Toy.params 1 0) 0 Toy.suite)) = 1%nat
  /\ count is_postEpoch (events (train (Toy.params 1 0) 0 Toy.suite))
     <> 1%nat.
Proof. split; vm_compute; [reflexivity|discriminate]. Qed.

(** On the second instance the step moves the masked weight to 1 and
    [rezeroWeights] puts it back to 0. *)
Lemma train_hooks_witness :
  ((log_interval Toy.p5 <> 0 \/ epoch_batches Noisy.suite = [])
   /\ result (train Toy.p5 0 Noisy.suite) = Ok tt
   /\ count is_step (events (train Toy.p5 0 Noisy.suite)) = 1%nat
   /\ (exists evs,
          events (train Toy.p5 0 Noisy.suite) = evs ++ [E_postEpoch]
          /\ count is_postEpoch evs = 0%nat)
   /\ model (final (train Toy.p5 0 Noisy.suite))
      = ((11, 0) : @Net Noisy.torch))
  /\ (log_interval (Toy.params 1 0) = 0
      /\ epoch_batches Noisy.suite = [([0; 1], [0; 1])]
      /\ result (train (Toy.params 1 0) 0 Noisy.suite)
         = Raise ZeroDivisionError
      /\ count is_postEpoch (events (train (Toy.params 1 0) 0 Noisy.suite))
         = 0%nat
      /\ model (final (train (Toy.params 1 0) 0 Noisy.suite))
         = ((1, 0) : @Net Noisy.torch)).
Proof.
  assert (Hli : log_interval Toy.p5 <> 0 \/ epoch_batches Noisy.suite = [])
    by (left; vm_compute; discriminate).
  destruct (train_hooks Toy.p5 0 Noisy.suite) as (_ & Hiff & Hend & _).
  pose proof (proj2 Hiff Hli) as Hok.
  destruct (Hend Hok) as (Hsteps & Hpost & Hm & _).
  destruct (train_hooks (Toy.params 1 0) 0 Noisy.suite)
    as (_ & _ & _ & Hab).
  destruct (Hab _ _ eq_refl eq_refl) as (Hr & _ & Hp & Hm0).
  split.
  - split; [exact Hli|]. split; [exact Hok|]. split; [exact Hsteps|].
    split; [exact Hpost|exact Hm].
  - split; [reflexivity|]. split; [reflexivity|]. split; [exact Hr|].
    split; [exact Hp|exact Hm0].
Defined.

Lemma runNoiseTests_frame_witness :
  (forall (net : @Net Toy.torch) (d : @Tensor Toy.torch),
      snd (forward false false net d) = net)
  /\ model (final (runNoiseTests Toy.p5 Toy.suite)) = model Toy.suite.
Proof.
  assert (H : forall (net : @Net Toy.torch) (d : @Tensor Toy.torch),
             snd (forward false false net d) = net)
    by (intros net d; reflexivity).
  split; [exact H|].
  exact (proj1 (runNoiseTests_frame (fun net => net) Toy.p5 Toy.suite H)).
Defined.



Lemma iterate_not_last_keys_witness :
  0 <> iterations (Toy.params 3 5) - 1
  /\ exists ret : pydict,
       result (iterate (Toy.params 3 5) 0 0 Toy.suite) = Ok ret
       /\ dict_keys ret = [KStr "elapsedTime"].
Proof.
  assert (Hi : 0 <> iterations (Toy.params 3 5) - 1)
    by (vm_compute; discriminate).
  split; [exact Hi|].
  destruct (iterate_not_last_keys (Toy.params 3 5) 0 0 Toy.suite Hi)
    as [Hret Hkeys].
  assert (Hli : log_interval (Toy.params 3 5) <> 0)
    by (vm_compute; discriminate).
  destruct (Hret Hli) as [ret Hok].
  exists ret. split; [exact Hok|]. exact (proj1 (Hkeys ret Hok)).
Defined.

Lemma train_log_interval_witness :
  result (train Toy.p5 0 Toy.suite) = Ok tt
  /\ result (train (Toy.params 1 0) 0 Toy.suite) = Raise ZeroDivisionError.
Proof.
  destruct (@train_log_interval Toy.torch) as [Hpos Hzero].
  split.
  - apply (Hpos Toy.p5 0 Toy.suite). vm_compute. discriminate.
  - apply (Hzero (Toy.params 1 0) 0 Toy.suite); [reflexivity|].
    vm_compute. discriminate.
Defined.

(** ** Witnesses of the further properties *)

Lemma train_savefig_count_witness :
  log_interval (Toy.params 1 2) <> 0
  /\ Z.of_nat (count is_savefig
                 (events (train (Toy.params 1 2) 0 Toy.suite))) = 1.
Proof.
  assert (Hli : log_interval (Toy.params 1 2) <> 0)
    by (vm_compute; discriminate).
  split; [exact Hli|].
  exact (train_savefig_count (Toy.params 1 2) 0 Toy.suite Hli).
Defined.

Lemma test_num_correct_bounds_witness :
  result (test Toy.p5 (Toy.test_set : @DataLoader Toy.torch) Toy.suite)
  = Ok ToyRun.tested
  /\ exists c : Z,
       dict_get (KStr "num_correct") ToyRun.tested = Some (PyInt c)
       /\ 0 <= c <= 2.
Proof.
  assert (Hr : result (test Toy.p5 (Toy.test_set : @DataLoader Toy.torch)
                         Toy.suite) = Ok ToyRun.tested)
    by (vm_compute; reflexivity).
  split; [exact Hr|].
  exact (test_num_correct_bounds Toy.p5
           (Toy.test_set : @DataLoader Toy.torch) Toy.suite ToyRun.tested Hr).
Defined.

Lemma test_raises_iff_witness :
  result (test Toy.p5
            ({| Toy.len := 0; Toy.yields := [] |} : @DataLoader Toy.torch)
            Toy.suite)
  = Raise ZeroDivisionError.
Proof.
  apply (proj1 (test_raises_iff Toy.p5
                  ({| Toy.len := 0; Toy.yields := [] |}
                   : @DataLoader Toy.torch) Toy.suite)).
  split; reflexivity.
Defined.

Lemma runNoiseTests_returns_iff_witness :
  exists ret : pydict, result (runNoiseTests Toy.p5 Toy.suite) = Ok ret.
Proof.
  apply (proj2 (runNoiseTests_returns_iff Toy.p5 Toy.suite)).
  apply toy_datasets_nonempty.
Defined.

Lemma iterate_returns_iff_witness :
  exists ret : pydict, result (iterate Toy.p5 0 0 Toy.suite) = Ok ret.
Proof.
  apply (proj2 (iterate_returns_iff Toy.p5 0 0 Toy.suite)).
  split; [left; vm_compute; discriminate|].
  intros _. apply toy_datasets_nonempty.
Defined.

Lemma iterate_elapsed_witness :
  result (iterate Toy.p5 0 0 Toy.suite) = Ok ToyRun.last
  /\ dict_get (KStr "elapsedTime") ToyRun.last = Some (PyFloat 1).
Proof.
  assert (Hr : result (iterate Toy.p5 0 0 Toy.suite) = Ok ToyRun.last)
    by (vm_compute; reflexivity).
  split; [exact Hr|].
  exact (proj1 (iterate_elapsed Toy.p5 0 0 Toy.suite ToyRun.last Hr)).
Defined.

Lemma iterate_mode_witness :
  result (iterate Toy.p5 0 0 Toy.suite) = Ok ToyRun.last
  /\ training (final (iterate Toy.p5 0 0 Toy.suite)) = false.
Proof.
  assert (Hr : result (iterate Toy.p5 0 0 Toy.suite) = Ok ToyRun.last)
    by (vm_compute; reflexivity).
  split; [exact Hr|].
  exact (iterate_mode Toy.p5 0 0 Toy.suite ToyRun.last Hr).
Defined.

Lemma iterate_zero_interval_witness :
  log_interval (Toy.params 1 0) = 0
  /\ epoch_batches Toy.suite <> []
  /\ result (iterate (Toy.params 1 0) 0 0 Toy.suite)
     = Raise ZeroDivisionError.
Proof.
  assert (Hb : epoch_batches Toy.suite <> []) by (vm_compute; discriminate).
  split; [reflexivity|]. split; [exact Hb|].
  exact (proj1 (iterate_zero_interval (Toy.params 1 0) 0 0 Toy.suite
                  eq_refl Hb)).
Defined.

Lemma iterate_last_keys_witness :
  0 = iterations Toy.p5 - 1
  /\ result (iterate Toy.p5 0 0 Toy.suite) = Ok ToyRun.last
  /\ dict_keys ToyRun.last
     = map KFloat noise_levels
         ++ [KStr "totalCorrect"; KStr "testerror"; KStr "elapsedTime"].
Proof.
  assert (Hr : result (iterate Toy.p5 0 0 Toy.suite) = Ok ToyRun.last)
    by (vm_compute; reflexivity).
  split; [reflexivity|]. split; [exact Hr|].
  exact (proj1 (iterate_last_keys Toy.p5 0 0 Toy.suite ToyRun.last
                  eq_refl Hr)).
Defined.

Lemma figure_path_inj_witness :
  figure_path 3 Toy.suite = figure_path 3 Toy.suite /\ 3 = 3.
Proof.
  split; [reflexivity|].
  exact (proj1 (figure_path_inj 3 3 Toy.suite Toy.suite eq_refl eq_refl)).
Defined.

Lemma train_rounds_witness :
  log_interval Toy.p5 <> 0
  /\ exists figs : list (option string),
       events (train Toy.p5 0 Toy.suite)
       = E_model_train :: List.concat (map batch_events figs)
           ++ [E_postEpoch]
       /\ List.length figs = 2%nat.
Proof.
  assert (Hli : log_interval Toy.p5 <> 0) by (vm_compute; discriminate).
  split; [exact Hli|].
  destruct (train_rounds Toy.p5 0 Toy.suite Hli) as (figs & He & Hl & _).
  exists figs. split; [exact He|exact Hl].
Defined.

Lemma reset_iterate_elapsed_witness :
  result (iterate Toy.p5 0 0 ToyRun.booted) = Ok ToyRun.first
  /\ result (iterate Toy.p5 0 1 (final (iterate Toy.p5 0 0 ToyRun.booted)))
     = Ok ToyRun.second
  /\ dict_get (KStr "elapsedTime") ToyRun.second = Some (PyFloat 2).
Proof.
  assert (H1 : result (iterate Toy.p5 0 0 ToyRun.booted) = Ok ToyRun.first)
    by (vm_compute; reflexivity).
  assert (H2 : result (iterate Toy.p5 0 1
                         (final (iterate Toy.p5 0 0 ToyRun.booted)))
               = Ok ToyRun.second)
    by (vm_compute; reflexivity).
  split; [exact H1|]. split; [exact H2|].
  exact (proj2 (reset_iterate_elapsed (H := ToyHost.host) ToyHost.params
                  Toy.p5 0 0 1 0 [] ToyRun.first ToyRun.second H1 H2)).
Defined.
